(** * AI Text Transformer Toolbox: prompt pipeline and Ollama client

    A shallow embedding of the prompt-composition and generation-request
    pipeline: [prompt_utils.py] (catalog lookup, default prompt, search
    filter), [ollama_api.py] (the HTTP client wrapper and
    [concatenate_prompts]) and the pieces of [app.py] that resolve the
    selection, cap it at ten entries and categorize the catalog.

    Conventions of the embedding:
    - a Python [str] is a Rocq [string]; [str.lower] is modelled on the
      ASCII range; comparison is lexicographic on character codes;
    - a Python [dict] is an association list in insertion order with the
      update-in-place semantics of [d[k] = v];
    - a call that may raise returns a [result]; the three HTTP calls take
      the answer of the network as an argument. *)

From Stdlib Require Import String Ascii List ZArith Bool Lia.
From Stdlib Require Import DecimalString Floats Sorting Permutation OrderedTypeEx.
Import ListNotations.
Open Scope string_scope.

(* ================================================================== *)
(** * Part I: definitions *)
(* ================================================================== *)

(** ** Python strings *)

(** The one-character string ["\n"]. *)
Definition nl : string := String "010"%char EmptyString.

(** [bool(s)] for a string: true when non-empty. *)
Definition truthy (s : string) : bool :=
  match s with
  | EmptyString => false
  | String _ _ => true
  end.

(** [sep.join(parts)]. *)
Definition join (sep : string) (parts : list string) : string :=
  String.concat sep parts.

(** [needle in hay] on strings. *)
Fixpoint contains (needle hay : string) : bool :=
  prefix needle hay ||
  match hay with
  | EmptyString => false
  | String _ rest => contains needle rest
  end.

Definition lower_char (c : ascii) : ascii :=
  let n := nat_of_ascii c in
  if (65 <=? n)%nat && (n <=? 90)%nat then ascii_of_nat (n + 32) else c.

(** [s.lower()], on ASCII letters. *)
Fixpoint lower (s : string) : string :=
  match s with
  | EmptyString => EmptyString
  | String c rest => String (lower_char c) (lower rest)
  end.

(** [str(n)] for an [int]. *)
Definition str_of_int (z : Z) : string :=
  NilZero.string_of_int (Z.to_int z).

(** [t] occurs in [s]: the specification side of [contains]. *)
Definition Substring (t s : string) : Prop :=
  exists pre post, s = pre ++ t ++ post.

(** ** Prompt Composer ([ollama_api.concatenate_prompts]) *)

Definition final_instruction : string :=
  nl ++ "Apply ALL of the above transformations to the user's input text.".

Definition concatenate_prompts (prompts : list string) : string :=
  match prompts with
  | [] => ""
  | _ => join (nl ++ nl) prompts ++ final_instruction
  end.

(** The directive of the composer contract, without its leading newline. *)
Definition trailing_directive : string :=
  "Apply ALL of the above transformations to the user's input text.".

(** ** Python dictionaries

    Insertion-ordered association lists.  [dict_set] is [d[k] = v]: an
    existing key keeps its position, a new key goes to the end. *)

Section Dict.
Context {V : Type}.

Definition dict : Type := list (string * V).

Fixpoint dict_get (d : dict) (k : string) : option V :=
  match d with
  | [] => None
  | (k', v) :: rest => if String.eqb k' k then Some v else dict_get rest k
  end.

Fixpoint dict_set (d : dict) (k : string) (v : V) : dict :=
  match d with
  | [] => [(k, v)]
  | (k', v') :: rest =>
      if String.eqb k' k then (k', v) :: rest
      else (k', v') :: dict_set rest k v
  end.

Definition dict_keys (d : dict) : list string := map fst d.

(** The invariant of a real Python dict: no key occurs twice. *)
Definition wf_dict (d : dict) : Prop := NoDup (dict_keys d).
End Dict.

Arguments dict V : clear implicits.

(** [o.get(field, default)] on a field that may be missing. *)
Definition get_or {A : Type} (field : option A) (default : A) : A :=
  match field with
  | Some v => v
  | None => default
  end.

(** ** Prompt Catalog ([prompt_utils.py]) *)

(** One entry of the prompt definition document.  A field is [None] when
    the key is missing from the entry. *)
Record prompt_data : Type := {
  pd_name : option string;
  pd_description : option string;
  pd_prompt : option string;
  pd_requires_json : option bool
}.

(** The empty entry [{}]. *)
Definition empty_prompt_data : prompt_data :=
  {| pd_name := None; pd_description := None;
     pd_prompt := None; pd_requires_json := None |}.

Definition get_prompt_by_id (prompt_id : string) (prompts_data : dict prompt_data)
  : prompt_data :=
  get_or (dict_get prompts_data prompt_id) empty_prompt_data.

Definition get_prompt_text (prompt_id : string) (prompts_data : dict prompt_data)
  : string :=
  let prompt_data := get_prompt_by_id prompt_id prompts_data in
  get_or (pd_prompt prompt_data) "".

Definition get_default_prompt : prompt_data :=
  {| pd_name := Some "Basic Cleanup";
     pd_prompt := Some "Take the following text and refine it to add missing punctuation, resolve typos, add paragraph spacing, and generally enhance the presentation of the text while preserving the original meaning.";
     pd_requires_json := Some false;
     pd_description := Some "Transforms text using basic cleanup style or format" |}.

(** The test of the loop of [filter_prompts], for an already lowercased
    search term. *)
Definition filter_match (search_term prompt_id : string) (prompt_data : prompt_data)
  : bool :=
  let name := lower (get_or (pd_name prompt_data) "") in
  let description := lower (get_or (pd_description prompt_data) "") in
  contains search_term name || contains search_term description
  || contains search_term (lower prompt_id).

Definition filter_prompts (prompts_data : dict prompt_data) (search_term : string)
  : dict prompt_data :=
  if negb (truthy search_term) then prompts_data
  else
    let search_term := lower search_term in
    fold_left
      (fun filtered '(prompt_id, prompt_data) =>
         if filter_match search_term prompt_id prompt_data
         then dict_set filtered prompt_id prompt_data
         else filtered)
      prompts_data [].

(** Dictionaries as objects: a store of dictionaries addressed by
    reference.  [filter_prompts_obj] returns the reference it hands back
    to the caller together with the store after the call: the argument
    itself for an empty search term, a freshly allocated dictionary
    otherwise. *)
Definition store : Type := list (dict prompt_data).

Definition filter_prompts_obj (objs : store) (prompts_data : nat) (search_term : string)
  : option (store * nat) :=
  match nth_error objs prompts_data with
  | None => None
  | Some d =>
      if negb (truthy search_term) then Some (objs, prompts_data)
      else Some ((objs ++ [filter_prompts d search_term])%list, length objs)
  end.


(** ** Prompt Selector ([app.transform_text], [app.main]) *)

(** The loop of [transform_text] that collects the prompt texts of the
    selected identifiers. *)
Definition collect_prompts (selected_transformations : list string)
    (prompts_data : dict prompt_data) : list string :=
  fold_left
    (fun selected_prompts prompt_id =>
       let prompt_text := get_prompt_text prompt_id prompts_data in
       if truthy prompt_text then (selected_prompts ++ [prompt_text])%list
       else selected_prompts)
    selected_transformations [].

(** [default_prompt["prompt"]]; the key is present in [get_default_prompt]. *)
Definition default_prompt_text : string :=
  get_or (pd_prompt get_default_prompt) "".

(** [selected_prompts] as [transform_text] hands it to the composer. *)
Definition selected_prompts (selected_transformations : list string)
    (prompts_data : dict prompt_data) : list string :=
  let selected_prompts := collect_prompts selected_transformations prompts_data in
  match selected_prompts with
  | [] => (selected_prompts ++ [default_prompt_text])%list
  | _ => selected_prompts
  end.

(** [system_prompt] of [transform_text]. *)
Definition system_prompt_of (selected_transformations : list string)
    (prompts_data : dict prompt_data) : string :=
  concatenate_prompts (selected_prompts selected_transformations prompts_data).

(** The specification of resolution: the non-empty instruction text of an
    identifier, if the catalog has one. *)
Definition instruction_of (prompts_data : dict prompt_data) (prompt_id : string)
  : option string :=
  match dict_get prompts_data prompt_id with
  | Some pd =>
      match pd_prompt pd with
      | Some (String c s) => Some (String c s)
      | _ => None
      end
  | None => None
  end.

Fixpoint resolved_texts (prompts_data : dict prompt_data) (selection : list string)
  : list string :=
  match selection with
  | [] => []
  | prompt_id :: rest =>
      match instruction_of prompts_data prompt_id with
      | Some t => t :: resolved_texts prompts_data rest
      | None => resolved_texts prompts_data rest
      end
  end.

Definition selection_warning : string :=
  "You can select up to 10 transformations. Only the first 10 will be applied.".

(** The cap of [main]: the warnings shown and the selection stored in the
    session state. *)
Definition limit_selection (selected_transformations : list string)
  : list string * list string :=
  if (10 <? length selected_transformations)%nat
  then ([selection_warning], firstn 10 selected_transformations)
  else ([], selected_transformations).

(** ** Categorization ([app.categorize_prompts]) *)

(** A bucket entry [(prompt_id, display name)]. *)
Definition entry : Type := (string * string)%type.

(** [any(word in name or word in description for word in words)]. *)
Definition any_word (name description : string) (words : list string) : bool :=
  existsb (fun word => contains word name || contains word description) words.

(** The [if]/[elif] chain of the loop: the key of the bucket an entry is
    appended to. *)
Definition category_of (prompt_data : prompt_data) : string :=
  let name := lower (get_or (pd_name prompt_data) "") in
  let description := lower (get_or (pd_description prompt_data) "") in
  if any_word name description
       ["cleanup"; "extract"; "anonymization"; "bullet"; "summary"]
  then "General"
  else if any_word name description
       ["email"; "letter"; "minutes"; "documentation"; "status"; "responder"]
  then "Professional"
  else if any_word name description ["academic"; "scientific"; "paper"]
  then "Academic"
  else if any_word name description ["blog"; "social"; "media"]
  then "Social Media"
  else if any_word name description
       ["poetry"; "poem"; "shakespeare"; "tolkien"; "creative"]
  then "Creative"
  else if any_word name description
       ["code"; "technical"; "development"; "software"]
  then "Technical"
  else if any_word name description ["format"; "convert"; "transform"]
  then "Format Conversion"
  else if any_word name description ["tone"; "style"; "formal"; "casual"]
  then "Style"
  else if any_word name description ["prompt"; "chatgpt"; "ai"]
  then "Prompting"
  else "Other".

(** The name shown for an entry: [prompt_data.get("name", "Unknown")]. *)
Definition display_name (prompt_data : prompt_data) : string :=
  get_or (pd_name prompt_data) "Unknown".

(** The initial [categories] dictionary, in its key order. *)
Definition empty_categories : dict (list entry) :=
  [("General", []); ("Format Conversion", []); ("Style", []);
   ("Professional", []); ("Academic", []); ("Creative", []);
   ("Technical", []); ("Social Media", []); ("Prompting", []);
   ("Other", [])].

(** [categories[category].append(item)]. *)
Fixpoint bucket_append (categories : dict (list entry)) (category : string)
    (item : entry) : dict (list entry) :=
  match categories with
  | [] => []
  | (k, items) :: rest =>
      if String.eqb k category then (k, (items ++ [item])%list) :: rest
      else (k, items) :: bucket_append rest category item
  end.

(** [list.sort(key=lambda x: x[1])]: a stable sort on the second
    component.  Stable sorting determines its result, so insertion from
    the right stands for the sort of the Python runtime. *)
Definition name_leb (x y : entry) : bool := String.leb (snd x) (snd y).

Fixpoint insert_by_name (x : entry) (sorted : list entry) : list entry :=
  match sorted with
  | [] => [x]
  | y :: rest =>
      if name_leb x y then x :: y :: rest
      else y :: insert_by_name x rest
  end.

Definition sort_by_name (items : list entry) : list entry :=
  fold_right insert_by_name [] items.

Definition categorize_prompts (prompts_data : dict prompt_data)
  : dict (list entry) :=
  let categories :=
    fold_left
      (fun categories '(prompt_id, prompt_data) =>
         bucket_append categories (category_of prompt_data)
           (prompt_id, display_name prompt_data))
      prompts_data empty_categories in
  map (fun '(category, items) => (category, sort_by_name items)) categories.

(** The priority contract as a rule list: bucket names with their
    keywords, tested in this order. *)
Definition category_rules : list (string * list string) :=
  [("General", ["cleanup"; "extract"; "anonymization"; "bullet"; "summary"]);
   ("Professional",
      ["email"; "letter"; "minutes"; "documentation"; "status"; "responder"]);
   ("Academic", ["academic"; "scientific"; "paper"]);
   ("Social Media", ["blog"; "social"; "media"]);
   ("Creative", ["poetry"; "poem"; "shakespeare"; "tolkien"; "creative"]);
   ("Technical", ["code"; "technical"; "development"; "software"]);
   ("Format Conversion", ["format"; "convert"; "transform"]);
   ("Style", ["tone"; "style"; "formal"; "casual"]);
   ("Prompting", ["prompt"; "chatgpt"; "ai"])].

(** A rule matches when one of its keywords occurs in the lowercased name
    or description. *)
Definition rule_matches (pd : prompt_data) (rule : string * list string) : bool :=
  existsb
    (fun word =>
       contains word (lower (get_or (pd_name pd) ""))
       || contains word (lower (get_or (pd_description pd) "")))
    (snd rule).

(** First matching rule wins; no match goes to ["Other"]. *)
Definition first_match (pd : prompt_data) : string :=
  match find (rule_matches pd) category_rules with
  | Some rule => fst rule
  | None => "Other"
  end.

(** The entries of the catalog that belong to a bucket, in catalog order. *)
Definition bucket_members (prompts_data : dict prompt_data) (category : string)
  : list entry :=
  map (fun kv => (fst kv, display_name (snd kv)))
    (filter (fun kv => String.eqb (category_of (snd kv)) category) prompts_data).

Definition name_le (x y : entry) : Prop := String.leb (snd x) (snd y) = true.

(** ** Generation Client ([ollama_api.OllamaAPI]) *)

(** Values of the JSON documents exchanged with the server, as the Python
    runtime holds them. *)
#[warnings="-register-all"]
Inductive json : Type :=
| JNull
| JBool (b : bool)
| JInt (z : Z)
| JFloat (f : float)
| JStr (s : string)
| JArr (items : list json)
| JObj (members : list (string * json)).

(** The exceptions the client code can meet.  [RequestException] stands
    for the whole [requests.RequestException] hierarchy, which includes
    the error [response.json()] raises on a body that is not JSON. *)
Inductive exn : Type :=
| RequestException (msg : string)
| KeyError (key : string)
| AttributeError (msg : string)
| TypeError (msg : string).

Inductive result (A : Type) : Type :=
| Return (a : A)
| Raise (e : exn).

Arguments Return {A} a.
Arguments Raise {A} e.

Definition bind {A B : Type} (m : result A) (k : A -> result B) : result B :=
  match m with
  | Return a => k a
  | Raise e => Raise e
  end.

Notation "x <- m ;; k" := (bind m (fun x => k))
  (at level 61, m at next level, right associativity).

(** [try: body  except requests.RequestException as e: handler(str(e))]. *)
Definition try_except_RequestException {A : Type} (body : result A)
    (handler : string -> result A) : result A :=
  match body with
  | Raise (RequestException msg) => handler msg
  | other => other
  end.

Fixpoint mapM {A B : Type} (f : A -> result B) (l : list A) : result (list B) :=
  match l with
  | [] => Return []
  | x :: rest => y <- f x ;; ys <- mapM f rest ;; Return (y :: ys)
  end.

(** What the server sends back: status line, raw body, and the body as
    [response.json()] decodes it ([NotJson] when decoding fails). *)
Inductive decoded : Type :=
| NotJson (err : string)
| Json (v : json).

Record response : Type := {
  status_code : Z;
  text : string;
  decoded_body : decoded
}.

(** The outcome of one HTTP exchange: the transport fails with a
    [requests.RequestException], or a response arrives. *)
Inductive http_outcome : Type :=
| TransportError (msg : string)
| Answer (r : response).

Inductive http_method : Type := GET | POST.

Record request : Type := {
  req_method : http_method;
  req_url : string;
  req_json : option (dict json)
}.

Definition network : Type := request -> http_outcome.

Definition send (net : network) (rq : request) : result response :=
  match net rq with
  | TransportError msg => Raise (RequestException msg)
  | Answer r => Return r
  end.

Definition requests_get (net : network) (url : string) : result response :=
  send net {| req_method := GET; req_url := url; req_json := None |}.

Definition requests_post (net : network) (url : string) (payload : dict json)
  : result response :=
  send net {| req_method := POST; req_url := url; req_json := Some payload |}.

(** [response.json()]. *)
Definition response_json (r : response) : result json :=
  match decoded_body r with
  | NotJson err => Raise (RequestException err)
  | Json v => Return v
  end.

(** [v.get(key, default)]: only a dictionary has the method. *)
Definition py_get (v : json) (key : string) (default : json) : result json :=
  match v with
  | JObj members => Return (get_or (dict_get members key) default)
  | _ => Raise (AttributeError "object has no attribute 'get'")
  end.

(** [v[key]] for a string key. *)
Definition py_subscript (v : json) (key : string) : result json :=
  match v with
  | JObj members =>
      match dict_get members key with
      | Some x => Return x
      | None => Raise (KeyError key)
      end
  | JArr _ => Raise (TypeError "list indices must be integers or slices, not str")
  | JStr _ => Raise (TypeError "string indices must be integers")
  | _ => Raise (TypeError "object is not subscriptable")
  end.

Fixpoint chars (s : string) : list json :=
  match s with
  | EmptyString => []
  | String c rest => JStr (String c EmptyString) :: chars rest
  end.

(** The elements [for model in v] runs through. *)
Definition py_iter (v : json) : result (list json) :=
  match v with
  | JArr items => Return items
  | JObj members => Return (map (fun kv => JStr (fst kv)) members)
  | JStr s => Return (chars s)
  | _ => Raise (TypeError "object is not iterable")
  end.

Record OllamaAPI : Type := {
  base_url : string;
  api_url : string
}.

Definition default_base_url : string := "http://localhost:11434".

(** [OllamaAPI.__init__]. *)
Definition OllamaAPI_init (base_url : string) : OllamaAPI :=
  {| base_url := base_url; api_url := base_url ++ "/api" |}.

Definition list_models (self : OllamaAPI) (net : network) : result (list json) :=
  try_except_RequestException
    (response <- requests_get net (api_url self ++ "/tags") ;;
     if (status_code response =? 200)%Z then
       payload <- response_json response ;;
       models <- py_get payload "models" (JArr []) ;;
       items <- py_iter models ;;
       mapM (fun model => py_subscript model "name") items
     else Return [])
    (fun _ => Return []).

(** The request body of [generate_text]. *)
Definition generate_payload (model prompt : string) (system_prompt : option string)
    (temperature : float) : dict json :=
  let payload :=
    [("model", JStr model); ("prompt", JStr prompt);
     ("temperature", JFloat temperature); ("stream", JBool false)] in
  match system_prompt with
  | Some s => if truthy s then dict_set payload "system" (JStr s) else payload
  | None => payload
  end.

Definition generate_text (self : OllamaAPI) (net : network) (model prompt : string)
    (system_prompt : option string) (temperature : float) : result json :=
  let url := api_url self ++ "/generate" in
  let payload := generate_payload model prompt system_prompt temperature in
  try_except_RequestException
    (response <- requests_post net url payload ;;
     if (status_code response =? 200)%Z then
       payload <- response_json response ;;
       py_get payload "response" (JStr "")
     else
       let error_msg :=
         "Error: " ++ str_of_int (status_code response) ++ " - " ++ text response in
       Return (JStr ("Failed to generate text. " ++ error_msg)))
    (fun e => Return (JStr ("Failed to connect to Ollama API: " ++ e))).

Definition check_connection (self : OllamaAPI) (net : network) : result bool :=
  try_except_RequestException
    (response <- requests_get net (base_url self ++ "/") ;;
     Return (status_code response =? 200)%Z)
    (fun _ => Return false).

(** A successful status in the sense of HTTP: the 2xx class. *)
Definition is_2xx (status : Z) : bool :=
  ((200 <=? status) && (status <? 300))%Z.

(** A network that gives the same outcome to every request. *)
Definition always (o : http_outcome) : network := fun _ => o.

(** Every entry of a model list is an object with a ["name"] member. *)
Definition named_entry (v : json) : option json :=
  match v with
  | JObj members => dict_get members "name"
  | _ => None
  end.

(** The ten bucket names, in the key order of the result. *)
Definition category_names : list string :=
  ["General"; "Format Conversion"; "Style"; "Professional"; "Academic";
   "Creative"; "Technical"; "Social Media"; "Prompting"; "Other"].

(** ** Sample data

    The catalog of the end-to-end scenario, extended with an entry whose
    instruction text is empty and one that has none. *)

Definition formal_email : prompt_data :=
  {| pd_name := Some "Formal Email";
     pd_description := Some "Rewrites the text as a formal email";
     pd_prompt := Some "Make it formal.";
     pd_requires_json := Some false |}.

Definition blank_entry : prompt_data :=
  {| pd_name := Some "Blank"; pd_description := Some "";
     pd_prompt := Some ""; pd_requires_json := None |}.

Definition untitled_entry : prompt_data :=
  {| pd_name := None; pd_description := Some "Shakespeare sonnet";
     pd_prompt := None; pd_requires_json := None |}.

Definition sample_catalog : dict prompt_data :=
  [("basic_cleanup", get_default_prompt); ("formal_email", formal_email);
   ("blank", blank_entry); ("untitled", untitled_entry)].

Definition twelve_ids : list string :=
  ["p01"; "p02"; "p03"; "p04"; "p05"; "p06";
   "p07"; "p08"; "p09"; "p10"; "p11"; "p12"].

(** Sample responses of the server. *)

Definition dq : string := String "034"%char EmptyString.

Definition client : OllamaAPI := OllamaAPI_init default_base_url.

(** [201 Created] with a well-formed generation payload. *)
Definition created_response : response :=
  {| status_code := 201;
     text := "{" ++ dq ++ "response" ++ dq ++ ": " ++ dq ++ "X" ++ dq ++ "}";
     decoded_body := Json (JObj [("response", JStr "X")]) |}.

(** [200 OK] whose body is the JSON array [[]]. *)
Definition array_response : response :=
  {| status_code := 200; text := "[]"; decoded_body := Json (JArr []) |}.

(** [200 OK] with the payload [{"response": "X"}]. *)
Definition ok_response : response :=
  {| status_code := 200;
     text := "{" ++ dq ++ "response" ++ dq ++ ": " ++ dq ++ "X" ++ dq ++ "}";
     decoded_body := Json (JObj [("response", JStr "X")]) |}.

(** [500] with a plain-text body. *)
Definition server_error_response : response :=
  {| status_code := 500; text := "boom"; decoded_body := NotJson "Expecting value" |}.

(** [204 No Content]. *)
Definition no_content_response : response :=
  {| status_code := 204; text := ""; decoded_body := NotJson "Expecting value" |}.

(** [200 OK] listing one model entry that has no name: [{"models": [{}]}]. *)
Definition nameless_models_response : response :=
  {| status_code := 200;
     text := "{" ++ dq ++ "models" ++ dq ++ ": [{}]}";
     decoded_body := Json (JObj [("models", JArr [JObj []])]) |}.

(** [201 Created] listing one well-formed model. *)
Definition created_models_response : response :=
  {| status_code := 201;
     text := "";
     decoded_body :=
       Json (JObj [("models", JArr [JObj [("name", JStr "llama3")]])]) |}.

(** [200 OK] listing two models. *)
Definition two_models_response : response :=
  {| status_code := 200;
     text := "";
     decoded_body :=
       Json (JObj [("models",
                    JArr [JObj [("name", JStr "llama3"); ("size", JInt 42)];
                          JObj [("name", JStr "mistral")]])]) |}.

Definition half : float := 0.5%float.

(** ** The flat list of the search view ([prompt_utils.get_prompt_names_and_ids]) *)

Definition get_prompt_names_and_ids (prompts_data : dict prompt_data)
  : list (string * string) :=
  map (fun '(prompt_id, data) => (prompt_id, get_or (pd_name data) "Unknown"))
    prompts_data.

(** ** File names ([utils.generate_suggested_filename],
       [file_utils.generate_filename])

    Character classes on the ASCII range, as [str.isspace] and
    [str.isalnum] have them there. *)

Definition is_space (c : ascii) : bool :=
  let n := nat_of_ascii c in
  ((9 <=? n)%nat && (n <=? 13)%nat) || ((28 <=? n)%nat && (n <=? 32)%nat).

Definition is_alnum (c : ascii) : bool :=
  let n := nat_of_ascii c in
  ((48 <=? n)%nat && (n <=? 57)%nat)
  || ((65 <=? n)%nat && (n <=? 90)%nat)
  || ((97 <=? n)%nat && (n <=? 122)%nat).

(** [text.split("\n", 1)[0]]: the text up to its first newline. *)
Fixpoint first_line (text : string) : string :=
  match text with
  | EmptyString => EmptyString
  | String c rest =>
      if Ascii.eqb c "010"%char then EmptyString else String c (first_line rest)
  end.

Fixpoint lstrip (s : string) : string :=
  match s with
  | EmptyString => EmptyString
  | String c rest => if is_space c then lstrip rest else s
  end.

Fixpoint rstrip (s : string) : string :=
  match s with
  | EmptyString => EmptyString
  | String c rest =>
      match rstrip rest with
      | EmptyString => if is_space c then EmptyString else String c EmptyString
      | kept => String c kept
      end
  end.

(** [s.strip()]. *)
Definition strip (s : string) : string := rstrip (lstrip s).

(** The words of [s] after the word [current] that is being read. *)
Fixpoint words_from (current s : string) : list string :=
  match s with
  | EmptyString => if truthy current then [current] else []
  | String c rest =>
      if is_space c
      then if truthy current then current :: words_from "" rest
           else words_from "" rest
      else words_from (current ++ String c EmptyString) rest
  end.

(** [s.split()]: the maximal runs of non-whitespace characters. *)
Definition split_words (s : string) : list string := words_from "" s.

(** [s[:n]]. *)
Fixpoint take (n : nat) (s : string) : string :=
  match n, s with
  | O, _ => EmptyString
  | _, EmptyString => EmptyString
  | S n', String c rest => String c (take n' rest)
  end.

Definition is_underscore (c : ascii) : bool := Ascii.eqb c "_"%char.

(** ["".join(c if c.isalnum() or c == "_" else "_" for c in s)]. *)
Fixpoint replace_special (s : string) : string :=
  match s with
  | EmptyString => EmptyString
  | String c rest =>
      String (if is_alnum c || is_underscore c then c else "_"%char)
        (replace_special rest)
  end.

(** ["".join(c if c.isalnum() or c == "_" else "" for c in s)]. *)
Fixpoint remove_special (s : string) : string :=
  match s with
  | EmptyString => EmptyString
  | String c rest =>
      if is_alnum c || is_underscore c then String c (remove_special rest)
      else remove_special rest
  end.

(** [utils.generate_suggested_filename]; [timestamp] is what
    [datetime.now().strftime("%Y%m%d_%H%M%S")] gives at the call. *)
Definition generate_suggested_filename (text extension timestamp : string) : string :=
  let first_line := strip (first_line text) in
  let words := firstn 5 (split_words first_line) in
  let filename_base := join "_" words in
  let filename_base := replace_special filename_base in
  let filename := filename_base ++ "_" ++ timestamp ++ "." ++ extension in
  if (255 <? String.length filename)%nat
  then take 50 filename_base ++ "_" ++ timestamp ++ "." ++ extension
  else filename.

(** [file_utils.generate_filename]. *)
Definition generate_filename (text extension timestamp : string) : string :=
  let words := firstn 5 (split_words text) in
  let title := lower (join "_" words) in
  let title := remove_special title in
  title ++ "_" ++ timestamp ++ "." ++ extension.




(** ** Preference store ([config.py])

    The preference file is seen through what [json.load] makes of it.
    Directory creation and writes are taken to succeed.  The module-level
    dictionary [DEFAULT_CONFIG] is part of the state: [load_preferences]
    hands out that very object when the file is missing or unreadable,
    and [update_preference] then assigns into it. *)

Inductive file_state : Type :=
| Absent
| Corrupt
| Stored (v : json).

Record config_state : Type := {
  DEFAULT_CONFIG : dict json;
  config_dir_exists : bool;
  config_file : file_state
}.

(** [DEFAULT_CONFIG] as the module defines it; [desktop] is
    [os.path.expanduser("~/Desktop")]. *)
Definition initial_default_config (desktop : string) : dict json :=
  [("model", JStr "llama3"); ("download_path", JStr desktop);
   ("last_used_transformations", JArr [JStr "basic_cleanup"])].

Definition ensure_config_dir (c : config_state) : config_state :=
  if config_dir_exists c then c
  else {| DEFAULT_CONFIG := DEFAULT_CONFIG c; config_dir_exists := true;
          config_file := config_file c |}.

Definition save_preferences (preferences : json) (c : config_state) : config_state :=
  let c := ensure_config_dir c in
  {| DEFAULT_CONFIG := DEFAULT_CONFIG c; config_dir_exists := config_dir_exists c;
     config_file := Stored preferences |}.

(** The object [load_preferences] returns: the global [DEFAULT_CONFIG]
    itself, or the fresh value decoded from the file. *)
Inductive preferences_object : Type :=
| TheDefaultConfig
| Loaded (v : json).

Definition load_preferences (c : config_state) : preferences_object * config_state :=
  let c := ensure_config_dir c in
  match config_file c with
  | Absent => (TheDefaultConfig, save_preferences (JObj (DEFAULT_CONFIG c)) c)
  | Corrupt => (TheDefaultConfig, save_preferences (JObj (DEFAULT_CONFIG c)) c)
  | Stored v => (Loaded v, c)
  end.

(** The value an object has in a given state. *)
Definition preferences_value (c : config_state) (o : preferences_object) : json :=
  match o with
  | TheDefaultConfig => JObj (DEFAULT_CONFIG c)
  | Loaded v => v
  end.

Definition update_preference (key : string) (value : json) (c : config_state)
  : result unit * config_state :=
  let '(preferences, c) := load_preferences c in
  match preferences with
  | TheDefaultConfig =>
      let c := {| DEFAULT_CONFIG := dict_set (DEFAULT_CONFIG c) key value;
                  config_dir_exists := config_dir_exists c;
                  config_file := config_file c |} in
      (Return tt, save_preferences (JObj (DEFAULT_CONFIG c)) c)
  | Loaded (JObj members) =>
      (Return tt, save_preferences (JObj (dict_set members key value)) c)
  | Loaded (JArr _) =>
      (Raise (TypeError "list indices must be integers or slices, not str"), c)
  | Loaded _ =>
      (Raise (TypeError "object does not support item assignment"), c)
  end.

Definition get_preference (key : string) (default : json) (c : config_state)
  : result json * config_state :=
  let '(preferences, c) := load_preferences c in
  (py_get (preferences_value c preferences) key default, c).

(** A preference file that [update_preference] can work on: missing,
    unreadable, or holding a JSON object. *)
Definition usable_file (f : file_state) : Prop :=
  match f with
  | Stored (JObj _) => True
  | Stored _ => False
  | _ => True
  end.

(** ** Session state and handlers ([app.py])

    The fields of [st.session_state] the handlers touch.  [output_text]
    and [available_models] hold whatever the client returned. *)

Record session_state : Type := {
  input_text : string;
  output_text : json;
  selected_transformations : list string;
  ollama_model : string;
  available_models : list json;
  prompts_data : dict prompt_data;
  suggested_filename : string;
  ollama_error : option string;
  transformation_success : bool
}.

(** What the handlers show: [st.warning], [st.error], [st.success]. *)
Inductive ui_message : Type :=
| Warning (msg : string)
| Error (msg : string)
| Success (msg : string).

Record world : Type := {
  session : session_state;
  shown : list ui_message;
  config : config_state
}.

(** Handlers read and write the world and may raise. *)
Definition app (A : Type) : Type := world -> result A * world.

Definition ret {A : Type} (a : A) : app A := fun w => (Return a, w).

Definition and_then {A B : Type} (m : app A) (k : A -> app B) : app B :=
  fun w =>
    match m w with
    | (Return a, w') => k a w'
    | (Raise e, w') => (Raise e, w')
    end.

Notation "x <~ m ;; k" := (and_then m (fun x => k))
  (at level 61, m at next level, right associativity).
Notation "m ;;; k" := (and_then m (fun _ => k))
  (at level 61, right associativity).

(** A call that touches no state. *)
Definition lift {A : Type} (r : result A) : app A := fun w => (r, w).

Definition get_session : app session_state := fun w => (Return (session w), w).

Definition modify_session (f : session_state -> session_state) : app unit :=
  fun w => (Return tt,
            {| session := f (session w); shown := shown w; config := config w |}).

Definition show (m : ui_message) : app unit :=
  fun w => (Return tt,
            {| session := session w; shown := (shown w ++ [m])%list;
               config := config w |}).

Definition with_config {A : Type} (f : config_state -> result A * config_state)
  : app A :=
  fun w =>
    let '(r, c) := f (config w) in
    (r, {| session := session w; shown := shown w; config := c |}).

(** [try: body  except Exception as e: handler(e)]. *)
Definition try_except_Exception {A : Type} (body : app A) (handler : exn -> app A)
  : app A :=
  fun w =>
    match body w with
    | (Raise e, w') => handler e w'
    | done => done
    end.

(** [str(e)]. *)
Definition str_of_exn (e : exn) : string :=
  match e with
  | RequestException msg => msg
  | KeyError key => "'" ++ key ++ "'"
  | AttributeError msg => msg
  | TypeError msg => msg
  end.


Definition set_output_text (v : json) (s : session_state) : session_state :=
  {| input_text := input_text s; output_text := v;
     selected_transformations := selected_transformations s;
     ollama_model := ollama_model s; available_models := available_models s;
     prompts_data := prompts_data s; suggested_filename := suggested_filename s;
     ollama_error := ollama_error s;
     transformation_success := transformation_success s |}.

Definition set_available_models (v : list json) (s : session_state) : session_state :=
  {| input_text := input_text s; output_text := output_text s;
     selected_transformations := selected_transformations s;
     ollama_model := ollama_model s; available_models := v;
     prompts_data := prompts_data s; suggested_filename := suggested_filename s;
     ollama_error := ollama_error s;
     transformation_success := transformation_success s |}.

Definition set_suggested_filename (v : string) (s : session_state) : session_state :=
  {| input_text := input_text s; output_text := output_text s;
     selected_transformations := selected_transformations s;
     ollama_model := ollama_model s; available_models := available_models s;
     prompts_data := prompts_data s; suggested_filename := v;
     ollama_error := ollama_error s;
     transformation_success := transformation_success s |}.

Definition set_ollama_error (v : option string) (s : session_state) : session_state :=
  {| input_text := input_text s; output_text := output_text s;
     selected_transformations := selected_transformations s;
     ollama_model := ollama_model s; available_models := available_models s;
     prompts_data := prompts_data s; suggested_filename := suggested_filename s;
     ollama_error := v;
     transformation_success := transformation_success s |}.

Definition set_transformation_success (v : bool) (s : session_state) : session_state :=
  {| input_text := input_text s; output_text := output_text s;
     selected_transformations := selected_transformations s;
     ollama_model := ollama_model s; available_models := available_models s;
     prompts_data := prompts_data s; suggested_filename := suggested_filename s;
     ollama_error := ollama_error s;
     transformation_success := v |}.

(** The default [temperature=0.7] of [generate_text], as the nearest
    binary64 value. *)
Definition default_temperature : float := 0x1.6666666666666p-1%float.

(** [utils.generate_suggested_filename] applied to what the client
    returned: only a string has [split]. *)
Definition suggested_filename_of (transformed_text : json) (timestamp : string)
  : result string :=
  match transformed_text with
  | JStr text => Return (generate_suggested_filename text "txt" timestamp)
  | _ => Raise (AttributeError "object has no attribute 'split'")
  end.

(** [app.transform_text]; [net] answers the request and [timestamp] is
    the clock reading used for the suggested file name. *)
Definition transform_text (net : network) (timestamp : string) : app unit :=
  st <~ get_session ;;
  if negb (truthy (input_text st))
  then show (Warning "Please enter some text to transform.")
  else
    let system_prompt :=
      system_prompt_of (selected_transformations st) (prompts_data st) in
    let client := OllamaAPI_init default_base_url in
    try_except_Exception
      (transformed_text <~
         lift (generate_text client net (ollama_model st) (input_text st)
                 (Some system_prompt) default_temperature) ;;
       modify_session (set_output_text transformed_text) ;;;
       filename <~ lift (suggested_filename_of transformed_text timestamp) ;;
       modify_session (set_suggested_filename filename) ;;;
       selection <~ (s <~ get_session ;; ret (selected_transformations s)) ;;
       with_config
         (update_preference "last_used_transformations" (JArr (map JStr selection))) ;;;
       modify_session (set_ollama_error None) ;;;
       modify_session (set_transformation_success true))
      (fun e =>
         modify_session (set_ollama_error (Some (str_of_exn e))) ;;;
         show (Error ("Error transforming text: " ++ str_of_exn e)) ;;;
         modify_session (set_transformation_success false)).

(** [app.check_ollama_connection]. *)
Definition check_ollama_connection (net : network) : app bool :=
  let client := OllamaAPI_init default_base_url in
  connected <~ lift (check_connection client net) ;;
  if connected then
    models <~ lift (list_models client net) ;;
    let models := match models with [] => [JStr "llama3"] | _ => models end in
    modify_session (set_available_models models) ;;;
    modify_session (set_ollama_error None) ;;;
    ret true
  else
    modify_session
      (set_ollama_error
         (Some "Cannot connect to Ollama API. Please ensure Ollama is installed and running.")) ;;;
    ret false.

(** Sample preference stores: a fresh installation, and a file that
    holds a JSON array. *)
Definition fresh_config : config_state :=
  {| DEFAULT_CONFIG := initial_default_config "/home/user/Desktop";
     config_dir_exists := false; config_file := Absent |}.

Definition array_config : config_state :=
  {| DEFAULT_CONFIG := initial_default_config "/home/user/Desktop";
     config_dir_exists := true; config_file := Stored (JArr []) |}.

(** Worlds that differ from a given one in one component; used to state
    what a handler leaves behind. *)
Definition with_session (f : session_state -> session_state) (w : world) : world :=
  {| session := f (session w); shown := shown w; config := config w |}.

Definition with_message (m : ui_message) (w : world) : world :=
  {| session := session w; shown := (shown w ++ [m])%list; config := config w |}.

Definition with_config_state (c : config_state) (w : world) : world :=
  {| session := session w; shown := shown w; config := c |}.

(** The world the [except] branch of [transform_text] leaves, entered on
    exception [e] in world [w]. *)
Definition after_exception (e : exn) (w : world) : world :=
  with_session (set_transformation_success false)
    (with_message (Error ("Error transforming text: " ++ str_of_exn e))
       (with_session (set_ollama_error (Some (str_of_exn e))) w)).

(** The request [transform_text] sends in a given world. *)
Definition transform_request (w : world) : request :=
  {| req_method := POST;
     req_url := "http://localhost:11434/api/generate";
     req_json :=
       Some (generate_payload (ollama_model (session w)) (input_text (session w))
               (Some (system_prompt_of (selected_transformations (session w))
                        (prompts_data (session w))))
               default_temperature) |}.

(** A sample world: the sample catalog, some input, a fresh store. *)
Definition sample_session : session_state :=
  {| input_text := "hello wrold";
     output_text := JStr "";
     selected_transformations := ["formal_email"];
     ollama_model := "llama3";
     available_models := [];
     prompts_data := sample_catalog;
     suggested_filename := "transformed_text.txt";
     ollama_error := None;
     transformation_success := false |}.

Definition sample_world : world :=
  {| session := sample_session; shown := []; config := fresh_config |}.

(** ** Observing the request of [generate_text]

    The request [generate_text] is to send, and a server that answers
    every request with a description of what it received: method, URL
    and JSON body, as the ["response"] member of a 200 answer.  Asking
    this server shows which request a client call really makes. *)

Definition generate_request (self : OllamaAPI) (model prompt : string)
    (system_prompt : option string) (temperature : float) : request :=
  {| req_method := POST;
     req_url := api_url self ++ "/generate";
     req_json := Some (generate_payload model prompt system_prompt temperature) |}.

Definition describe_request (rq : request) : json :=
  JObj [("method", JStr match req_method rq with GET => "GET" | POST => "POST" end);
        ("url", JStr (req_url rq));
        ("json", match req_json rq with
                 | Some payload => JObj payload
                 | None => JNull
                 end)].

Definition echo_server : network :=
  fun rq =>
    Answer {| status_code := 200; text := "";
              decoded_body := Json (JObj [("response", describe_request rq)]) |}.


(* ================================================================== *)
(** * Part II: theorems *)
(* ================================================================== *)

(** ** Strings *)

Lemma append_nil_r (s : string) : s ++ "" = s.
Proof. induction s as [|c s IH]; simpl; [reflexivity | now rewrite IH]. Qed.

Lemma append_assoc (a b c : string) : (a ++ b) ++ c = a ++ b ++ c.
Proof. induction a as [|x a IH]; simpl; [reflexivity | now rewrite IH]. Qed.

(** ** Prompt Composer *)

Lemma concatenate_prompts_cons (a : string) (rest : list string) :
  concatenate_prompts (a :: rest) = join (nl ++ nl) (a :: rest) ++ final_instruction.
Proof. reflexivity. Qed.

Lemma concatenate_prompts_step (a b : string) (rest : list string) :
  concatenate_prompts (a :: b :: rest)
  = a ++ nl ++ nl ++ concatenate_prompts (b :: rest).
Proof.
  rewrite !concatenate_prompts_cons. unfold join.
  change (String.concat (nl ++ nl) (a :: b :: rest))
    with (a ++ (nl ++ nl) ++ String.concat (nl ++ nl) (b :: rest)).
  now rewrite !append_assoc.
Qed.

(** C1. [concatenate_prompts] of the empty list is the empty string; of
    [[a]] it is [a], one newline and the trailing directive; of [[a; b]]
    it is [a], two newlines, [b], one newline and the directive; and for
    every non-empty list the texts are joined by double newlines in input
    order (head first, then the composition of the tail) with the
    directive appended once at the end. *)
Theorem concatenate_prompts_spec :
  concatenate_prompts [] = ""
  /\ (forall a, concatenate_prompts [a] = a ++ nl ++ trailing_directive)
  /\ (forall a b,
        concatenate_prompts [a; b]
        = a ++ nl ++ nl ++ b ++ nl ++ trailing_directive)
  /\ (forall a rest,
        concatenate_prompts (a :: rest)
        = join (nl ++ nl) (a :: rest) ++ nl ++ trailing_directive)
  /\ (forall a b rest,
        concatenate_prompts (a :: b :: rest)
        = a ++ nl ++ nl ++ concatenate_prompts (b :: rest)).
Proof.
  split; [reflexivity|].
  split; [intros a; reflexivity|].
  split.
  - intros a b. rewrite concatenate_prompts_step. reflexivity.
  - split.
    + intros a rest. reflexivity.
    + apply concatenate_prompts_step.
Qed.

(** ** Substring test *)



(** ** Dictionaries *)


Lemma dict_get_None {V : Type} (d : dict V) (k : string) :
  dict_get d k = None <-> ~ In k (dict_keys d).
Proof.
  induction d as [|[k' v'] d IH]; simpl.
  - tauto.
  - destruct (String.eqb_spec k' k) as [->|Hne].
    + split; [discriminate | intros H; elim H; now left].
    + rewrite IH. tauto.
Qed.

Lemma In_dict_get {V : Type} (d : dict V) (k : string) (v : V) :
  wf_dict d -> In (k, v) d -> dict_get d k = Some v.
Proof.
  unfold wf_dict. induction d as [|[k' v'] d IH]; simpl; [tauto|].
  intros Hnd [H|H]; inversion Hnd as [|? ? Hnotin Hnd']; subst.
  - injection H as -> ->. now rewrite String.eqb_refl.
  - destruct (String.eqb_spec k' k) as [->|Hne]; [|auto].
    elim Hnotin. change k with (fst (k, v)). now apply in_map.
Qed.

Lemma dict_set_fresh {V : Type} (d : dict V) (k : string) (v : V) :
  ~ In k (dict_keys d) -> dict_set d k v = (d ++ [(k, v)])%list.
Proof.
  induction d as [|[k' v'] d IH]; simpl; [reflexivity|].
  intros H. destruct (String.eqb_spec k' k) as [->|Hne]; [tauto|].
  rewrite IH; tauto.
Qed.

(** ** Prompt Selector *)

Lemma get_prompt_text_instruction (prompts_data : dict prompt_data) (prompt_id : string) :
  match instruction_of prompts_data prompt_id with
  | Some t => get_prompt_text prompt_id prompts_data = t /\ truthy t = true
  | None => get_prompt_text prompt_id prompts_data = ""
  end.
Proof.
  unfold instruction_of, get_prompt_text, get_prompt_by_id.
  destruct (dict_get prompts_data prompt_id) as [pd|]; simpl; [|reflexivity].
  destruct (pd_prompt pd) as [[|c s]|]; simpl; auto.
Qed.

Lemma collect_loop (prompts_data : dict prompt_data) (selection acc : list string) :
  fold_left
    (fun selected_prompts prompt_id =>
       let prompt_text := get_prompt_text prompt_id prompts_data in
       if truthy prompt_text then (selected_prompts ++ [prompt_text])%list
       else selected_prompts)
    selection acc
  = (acc ++ resolved_texts prompts_data selection)%list.
Proof.
  revert acc. induction selection as [|prompt_id rest IH]; intros acc; simpl.
  - now rewrite app_nil_r.
  - rewrite IH.
    pose proof (get_prompt_text_instruction prompts_data prompt_id) as H.
    destruct (instruction_of prompts_data prompt_id) as [t|].
    + destruct H as [-> ->]. now rewrite <- app_assoc.
    + now rewrite H.
Qed.

Lemma collect_prompts_resolved (selection : list string) (prompts_data : dict prompt_data) :
  collect_prompts selection prompts_data = resolved_texts prompts_data selection.
Proof. unfold collect_prompts. now rewrite collect_loop. Qed.

Lemma resolved_texts_app (prompts_data : dict prompt_data) (s1 s2 : list string) :
  resolved_texts prompts_data (s1 ++ s2)
  = (resolved_texts prompts_data s1 ++ resolved_texts prompts_data s2)%list.
Proof.
  induction s1 as [|prompt_id s1 IH]; simpl; [reflexivity|].
  destruct (instruction_of prompts_data prompt_id); simpl; now rewrite IH.
Qed.

Lemma resolved_texts_none (prompts_data : dict prompt_data) (selection : list string) :
  (forall prompt_id, In prompt_id selection ->
     instruction_of prompts_data prompt_id = None) ->
  resolved_texts prompts_data selection = [].
Proof.
  induction selection as [|prompt_id rest IH]; simpl; [reflexivity|].
  intros H. rewrite (H prompt_id) by now left. apply IH. intros; apply H; now right.
Qed.

Lemma selected_prompts_cases (selection : list string) (prompts_data : dict prompt_data) :
  selected_prompts selection prompts_data
  = match resolved_texts prompts_data selection with
    | [] => [default_prompt_text]
    | t :: ts => t :: ts
    end.
Proof.
  unfold selected_prompts. rewrite collect_prompts_resolved.
  now destruct (resolved_texts prompts_data selection).
Qed.

Lemma concatenate_prompts_nonempty (prompts : list string) :
  prompts <> [] -> concatenate_prompts prompts <> "".
Proof.
  destruct prompts as [|a rest]; [congruence|]. intros _.
  rewrite concatenate_prompts_cons. unfold final_instruction, nl.
  destruct (join _ (a :: rest)); discriminate.
Qed.

(** C2. Resolution returns the instruction texts of the resolvable
    identifiers in the relative order of the selection: the collected
    sequence is the selection mapped through the catalog with the
    unresolvable identifiers dropped, it distributes over concatenation
    of selections, and an identifier absent from the catalog contributes
    nothing.  The function is total (it never raises).  When the
    collected sequence is empty, the result is exactly the one Basic
    Cleanup default; so the composer never receives zero instructions. *)
Theorem selected_prompts_spec (selection : list string) (prompts_data : dict prompt_data) :
  collect_prompts selection prompts_data = resolved_texts prompts_data selection
  /\ (forall s1 s2,
        collect_prompts (s1 ++ s2) prompts_data
        = (collect_prompts s1 prompts_data ++ collect_prompts s2 prompts_data)%list)
  /\ (forall prompt_id,
        dict_get prompts_data prompt_id = None ->
        collect_prompts [prompt_id] prompts_data = [])
  /\ (forall prompt_id pd c t,
        dict_get prompts_data prompt_id = Some pd ->
        pd_prompt pd = Some (String c t) ->
        collect_prompts [prompt_id] prompts_data = [String c t])
  /\ selected_prompts selection prompts_data
     = match collect_prompts selection prompts_data with
       | [] => [default_prompt_text]
       | t :: ts => t :: ts
       end
  /\ selected_prompts [] prompts_data = [default_prompt_text]
  /\ ((forall prompt_id, In prompt_id selection ->
         dict_get prompts_data prompt_id = None) ->
      selected_prompts selection prompts_data = [default_prompt_text])
  /\ pd_name get_default_prompt = Some "Basic Cleanup"
  /\ pd_prompt get_default_prompt = Some default_prompt_text
  /\ selected_prompts selection prompts_data <> []
  /\ system_prompt_of selection prompts_data <> "".
Proof.
  assert (Hne : selected_prompts selection prompts_data <> []).
  { rewrite selected_prompts_cases.
    destruct (resolved_texts prompts_data selection); discriminate. }
  split; [apply collect_prompts_resolved|].
  split; [intros; rewrite !collect_prompts_resolved; apply resolved_texts_app|].
  split.
  { intros prompt_id H. rewrite collect_prompts_resolved. simpl.
    unfold instruction_of. now rewrite H. }
  split.
  { intros prompt_id pd c t H1 H2. rewrite collect_prompts_resolved. simpl.
    unfold instruction_of. now rewrite H1, H2. }
  split; [rewrite collect_prompts_resolved; apply selected_prompts_cases|].
  split; [reflexivity|].
  split.
  { intros H. rewrite selected_prompts_cases, resolved_texts_none; [reflexivity|].
    intros prompt_id Hin. unfold instruction_of. now rewrite (H _ Hin). }
  split; [reflexivity|]. split; [reflexivity|].
  split; [exact Hne|].
  now apply concatenate_prompts_nonempty.
Qed.

(** C9. An identifier whose catalog entry has a missing or empty
    instruction text contributes nothing to the resolved sequence, like
    an absent one; and when every selected identifier is absent or of
    this kind, the single Basic Cleanup default is substituted. *)
Theorem empty_text_skipped (selection : list string) (prompts_data : dict prompt_data) :
  (forall prompt_id pd,
     dict_get prompts_data prompt_id = Some pd ->
     pd_prompt pd = None \/ pd_prompt pd = Some "" ->
     get_prompt_text prompt_id prompts_data = ""
     /\ forall s1 s2,
          collect_prompts (s1 ++ prompt_id :: s2) prompts_data
          = collect_prompts (s1 ++ s2) prompts_data)
  /\ ((forall prompt_id, In prompt_id selection ->
         exists pd, dict_get prompts_data prompt_id = Some pd
                    /\ (pd_prompt pd = None \/ pd_prompt pd = Some "")) ->
      collect_prompts selection prompts_data = []
      /\ selected_prompts selection prompts_data = [default_prompt_text]).
Proof.
  assert (Hnone : forall prompt_id pd,
             dict_get prompts_data prompt_id = Some pd ->
             pd_prompt pd = None \/ pd_prompt pd = Some "" ->
             instruction_of prompts_data prompt_id = None).
  { intros prompt_id pd H [H'|H']; unfold instruction_of; now rewrite H, H'. }
  split.
  - intros prompt_id pd H H'. split.
    + unfold get_prompt_text, get_prompt_by_id. rewrite H. simpl.
      now destruct H' as [-> | ->].
    + intros s1 s2. rewrite !collect_prompts_resolved, !resolved_texts_app.
      simpl. now rewrite (Hnone _ _ H H').
  - intros H.
    assert (Hr : resolved_texts prompts_data selection = []).
    { apply resolved_texts_none. intros prompt_id Hin.
      destruct (H _ Hin) as [pd [H1 H2]]. eauto. }
    now rewrite selected_prompts_cases, collect_prompts_resolved, Hr.
Qed.

(** C8. A selection of more than ten identifiers is cut to its first ten,
    in presentation order, and one warning is issued; a selection of ten
    or fewer is stored unchanged with no warning. *)
Theorem limit_selection_spec (selected : list string) :
  ((10 < length selected)%nat ->
     exists first10 rest,
       selected = (first10 ++ rest)%list /\ length first10 = 10%nat
       /\ limit_selection selected = ([selection_warning], first10))
  /\ ((length selected <= 10)%nat -> limit_selection selected = ([], selected)).
Proof.
  unfold limit_selection. split; intros H.
  - exists (firstn 10 selected), (skipn 10 selected).
    split; [now rewrite firstn_skipn|].
    split; [rewrite length_firstn; lia|].
    destruct (Nat.ltb_spec 10 (length selected)); [reflexivity | lia].
  - destruct (Nat.ltb_spec 10 (length selected)); [lia | reflexivity].
Qed.

Lemma limit_selection_witness :
  (10 < length twelve_ids)%nat
  /\ exists first10 rest,
       twelve_ids = (first10 ++ rest)%list /\ length first10 = 10%nat
       /\ limit_selection twelve_ids = ([selection_warning], first10).
Proof.
  split; [simpl; lia|].
  apply (proj1 (limit_selection_spec twelve_ids)). simpl; lia.
Defined.

Example limit_selection_twelve :
  limit_selection twelve_ids
  = ([selection_warning],
     ["p01"; "p02"; "p03"; "p04"; "p05"; "p06"; "p07"; "p08"; "p09"; "p10"]).
Proof. reflexivity. Qed.

Lemma selected_prompts_witness :
  dict_get sample_catalog "missing" = None
  /\ collect_prompts ["missing"] sample_catalog = []
  /\ selected_prompts ["missing"] sample_catalog = [default_prompt_text].
Proof.
  destruct (selected_prompts_spec ["missing"] sample_catalog)
    as (_ & _ & Habsent & _ & _ & _ & Hall & _).
  split; [reflexivity|]. split.
  - apply Habsent. reflexivity.
  - apply Hall. intros prompt_id [<-|[]]. reflexivity.
Defined.

Example selected_prompts_scenario :
  selected_prompts ["formal_email"; "nope"; "basic_cleanup"] sample_catalog
  = ["Make it formal."; default_prompt_text]
  /\ system_prompt_of ["formal_email"; "basic_cleanup"] sample_catalog
     = "Make it formal." ++ nl ++ nl ++ default_prompt_text ++ nl
       ++ trailing_directive.
Proof. split; reflexivity. Qed.

Lemma empty_text_skipped_witness :
  dict_get sample_catalog "blank" = Some blank_entry
  /\ (pd_prompt blank_entry = None \/ pd_prompt blank_entry = Some "")
  /\ get_prompt_text "blank" sample_catalog = ""
  /\ selected_prompts ["blank"; "untitled"] sample_catalog = [default_prompt_text].
Proof.
  destruct (empty_text_skipped ["blank"; "untitled"] sample_catalog) as [Hone Hall].
  split; [reflexivity|]. split; [now right|]. split.
  - apply (Hone "blank" blank_entry); [reflexivity | now right].
  - apply Hall. intros prompt_id [<-|[<-|[]]].
    + exists blank_entry. split; [reflexivity | now right].
    + exists untitled_entry. split; [reflexivity | now left].
Defined.

(** ** Generation Client *)

Lemma Substring_mid (a b c : string) : Substring b (a ++ b ++ c).
Proof. now exists a, c. Qed.

Lemma Substring_right (a b : string) : Substring b (a ++ b).
Proof. exists a, "". now rewrite append_nil_r. Qed.

Lemma Substring_app_l (t a b : string) : Substring t b -> Substring t (a ++ b).
Proof.
  intros [pre [post ->]]. exists (a ++ pre), post. now rewrite append_assoc.
Qed.

Lemma mapM_named (items names : list json) :
  map named_entry items = map Some names ->
  mapM (fun model => py_subscript model "name") items = Return names.
Proof.
  revert names. induction items as [|model items IH]; intros [|name names] H;
    try discriminate; [reflexivity|].
  simpl in H. injection H as Hm Hrest.
  cbn [mapM]. rewrite (IH _ Hrest).
  destruct model; try discriminate. simpl in Hm. simpl. now rewrite Hm.
Qed.

(** C5, as the code has it.  [check_connection] never raises; it returns
    true exactly when a response arrives whose status is 200, and false
    on a transport failure and on every other status. *)
Theorem check_connection_spec (self : OllamaAPI) (net : network) :
  let probe := {| req_method := GET; req_url := base_url self ++ "/";
                  req_json := None |} in
  check_connection self net
  = Return match net probe with
           | Answer r => (status_code r =? 200)%Z
           | TransportError _ => false
           end
  /\ (check_connection self net = Return true
      <-> exists r, net probe = Answer r /\ status_code r = 200%Z)
  /\ (check_connection self net = Return false
      <-> (exists msg, net probe = TransportError msg)
          \/ exists r, net probe = Answer r /\ status_code r <> 200%Z).
Proof.
  intros probe.
  assert (E : check_connection self net
              = Return match net probe with
                       | Answer r => (status_code r =? 200)%Z
                       | TransportError _ => false
                       end).
  { unfold check_connection, requests_get, send. fold probe.
    now destruct (net probe). }
  split; [exact E|]. rewrite E. split.
  - split.
    + destruct (net probe) as [msg|r]; [discriminate|].
      intros [= H]. exists r. split; [reflexivity | now apply Z.eqb_eq].
    + intros [r [-> H]]. now rewrite H.
  - split.
    + destruct (net probe) as [msg|r]; [left; now exists msg|].
      intros [= H]. right. exists r. split; [reflexivity | now apply Z.eqb_neq].
    + intros [[msg ->]|[r [-> H]]]; [reflexivity|].
      apply Z.eqb_neq in H. now rewrite H.
Qed.

(** C5 fails on the code: a 204 response is successful (2xx), yet
    [check_connection] answers false. *)
Lemma check_connection_no_content :
  is_2xx (status_code no_content_response) = true
  /\ check_connection client (always (Answer no_content_response)) = Return false.
Proof. split; reflexivity. Qed.

(** C10. An empty system instruction is treated like an absent one: the
    payloads are equal and have no ["system"] member, and the member is
    present, holding the instruction, exactly when the instruction is a
    non-empty string.  This payload is what [generate_text] sends: a
    server that echoes the request it receives gets one POST to the
    generate endpoint whose JSON body is that payload; the outcome of
    [generate_text] is decided by the answer to exactly this request; so
    the requests and results for the empty string and for no instruction
    coincide. *)
Theorem generate_payload_system (model prompt : string) (temperature : float) :
  generate_payload model prompt (Some "") temperature
  = generate_payload model prompt None temperature
  /\ dict_get (generate_payload model prompt None temperature) "system" = None
  /\ dict_get (generate_payload model prompt (Some "") temperature) "system" = None
  /\ (forall system_prompt,
        dict_get (generate_payload model prompt system_prompt temperature) "system"
        = match system_prompt with
          | Some (String c s) => Some (JStr (String c s))
          | _ => None
          end)
  /\ (forall system_prompt,
        In "system"
           (dict_keys (generate_payload model prompt system_prompt temperature))
        <-> exists c s, system_prompt = Some (String c s))
  /\ (forall self net,
        generate_text self net model prompt (Some "") temperature
        = generate_text self net model prompt None temperature)
  /\ (forall self system_prompt,
        generate_text self echo_server model prompt system_prompt temperature
        = Return (describe_request
                    {| req_method := POST;
                       req_url := api_url self ++ "/generate";
                       req_json :=
                         Some (generate_payload model prompt system_prompt
                                 temperature) |}))
  /\ (forall self system_prompt,
        generate_text self echo_server model prompt system_prompt temperature
        = Return (JObj [("method", JStr "POST");
                        ("url", JStr (api_url self ++ "/generate"));
                        ("json",
                         JObj (match system_prompt with
                               | Some (String c s) =>
                                   [("model", JStr model); ("prompt", JStr prompt);
                                    ("temperature", JFloat temperature);
                                    ("stream", JBool false);
                                    ("system", JStr (String c s))]
                               | _ =>
                                   [("model", JStr model); ("prompt", JStr prompt);
                                    ("temperature", JFloat temperature);
                                    ("stream", JBool false)]
                               end))]))
  /\ (forall self net system_prompt msg,
        net (generate_request self model prompt system_prompt temperature)
        = TransportError msg ->
        generate_text self net model prompt system_prompt temperature
        = Return (JStr ("Failed to connect to Ollama API: " ++ msg)))
  /\ (forall self net1 net2 system_prompt,
        net1 (generate_request self model prompt system_prompt temperature)
        = net2 (generate_request self model prompt system_prompt temperature) ->
        generate_text self net1 model prompt system_prompt temperature
        = generate_text self net2 model prompt system_prompt temperature)
  /\ (forall self,
        generate_request self model prompt (Some "") temperature
        = generate_request self model prompt None temperature).
Proof.
  split; [reflexivity|]. split; [reflexivity|]. split; [reflexivity|].
  split; [intros [[|c s]|]; reflexivity|].
  split.
  { intros [[|c s]|]; simpl.
    - split; [intros H | intros (c & s & H); discriminate].
      repeat (destruct H as [H|H]; [discriminate|]). elim H.
    - split; [intros _; now exists c, s | intros _; tauto].
    - split; [intros H | intros (c & s & H); discriminate].
      repeat (destruct H as [H|H]; [discriminate|]). elim H. }
  split; [reflexivity|].
  split; [reflexivity|].
  split; [intros self [[|c s]|]; reflexivity|].
  split.
  { intros self net system_prompt msg H.
    unfold generate_text, requests_post, send.
    unfold generate_request in H. now rewrite H. }
  split; [|reflexivity].
  intros self net1 net2 system_prompt H.
  unfold generate_text, requests_post, send.
  unfold generate_request in H. now rewrite H.
Qed.

Lemma check_connection_witness :
  (exists r,
     always (Answer ok_response)
       {| req_method := GET; req_url := base_url client ++ "/"; req_json := None |}
     = Answer r /\ status_code r = 200%Z)
  /\ check_connection client (always (Answer ok_response)) = Return true.
Proof.
  assert (H : exists r,
             always (Answer ok_response)
               {| req_method := GET; req_url := base_url client ++ "/";
                  req_json := None |}
             = Answer r /\ status_code r = 200%Z).
  { exists ok_response. split; reflexivity. }
  split; [exact H|].
  destruct (check_connection_spec client (always (Answer ok_response)))
    as (_ & Htrue & _).
  apply Htrue. exact H.
Defined.

Lemma generate_payload_system_witness :
  (exists c s, Some "Be formal." = Some (String c s))
  /\ In "system" (dict_keys (generate_payload "llama3" "hi" (Some "Be formal.") half))
  /\ always (TransportError "refused")
       (generate_request client "llama3" "hi" (Some "Be formal.") half)
     = TransportError "refused"
  /\ generate_text client (always (TransportError "refused")) "llama3" "hi"
       (Some "Be formal.") half
     = Return (JStr "Failed to connect to Ollama API: refused").
Proof.
  assert (H : exists c s, Some "Be formal." = Some (String c s)).
  { now exists "B"%char, "e formal.". }
  destruct (generate_payload_system "llama3" "hi" half)
    as (_ & _ & _ & _ & Hin & _ & _ & _ & Hsent & _).
  split; [exact H|].
  split; [apply Hin; exact H|].
  split; [reflexivity|].
  apply Hsent. reflexivity.
Defined.

(** The echoing server, asked with and without a system instruction. *)
Example generate_text_echo :
  generate_text client echo_server "llama3" "hi" (Some "Be formal.") half
  = Return (JObj [("method", JStr "POST");
                  ("url", JStr "http://localhost:11434/api/generate");
                  ("json",
                   JObj [("model", JStr "llama3"); ("prompt", JStr "hi");
                         ("temperature", JFloat half); ("stream", JBool false);
                         ("system", JStr "Be formal.")])])
  /\ generate_text client echo_server "llama3" "hi" (Some "") half
     = Return (JObj [("method", JStr "POST");
                     ("url", JStr "http://localhost:11434/api/generate");
                     ("json",
                      JObj [("model", JStr "llama3"); ("prompt", JStr "hi");
                            ("temperature", JFloat half); ("stream", JBool false)])])
  /\ generate_text client echo_server "llama3" "hi" None half
     = generate_text client echo_server "llama3" "hi" (Some "") half.
Proof. repeat split; reflexivity. Qed.

(** C3, as the code has it.  On a transport failure [generate_text]
    returns a string that embeds the exception text.  On a response whose
    status is not 200 it returns a string that embeds the status code and
    the raw body.  On a 200 response whose payload is a JSON object it
    returns the ["response"] member, the empty string when the member is
    absent; a 200 body that is not JSON is reported like a transport
    failure. *)
Theorem generate_text_spec (self : OllamaAPI) (net : network) (model prompt : string)
    (system_prompt : option string) (temperature : float) :
  let rq := {| req_method := POST; req_url := api_url self ++ "/generate";
               req_json := Some (generate_payload model prompt system_prompt
                                   temperature) |} in
  let out := generate_text self net model prompt system_prompt temperature in
  (forall msg, net rq = TransportError msg ->
     out = Return (JStr ("Failed to connect to Ollama API: " ++ msg))
     /\ Substring msg ("Failed to connect to Ollama API: " ++ msg))
  /\ (forall r, net rq = Answer r -> status_code r <> 200%Z ->
        let shown := "Failed to generate text. Error: "
                     ++ str_of_int (status_code r) ++ " - " ++ text r in
        out = Return (JStr shown)
        /\ Substring (str_of_int (status_code r)) shown
        /\ Substring (text r) shown)
  /\ (forall r members, net rq = Answer r -> status_code r = 200%Z ->
        decoded_body r = Json (JObj members) ->
        out = Return (get_or (dict_get members "response") (JStr "")))
  /\ (forall r err, net rq = Answer r -> status_code r = 200%Z ->
        decoded_body r = NotJson err ->
        out = Return (JStr ("Failed to connect to Ollama API: " ++ err))).
Proof.
  intros rq out. subst out.
  unfold generate_text, requests_post, send. fold rq.
  split; [|split; [|split]].
  - intros msg ->. split; [reflexivity | apply Substring_right].
  - intros r -> H. apply Z.eqb_neq in H. cbn [bind try_except_RequestException].
    rewrite H. split; [reflexivity|]. split.
    + apply Substring_mid.
    + apply Substring_app_l, Substring_app_l, Substring_right.
  - intros r members -> H Hbody. cbn [bind try_except_RequestException].
    rewrite H. unfold response_json. now rewrite Hbody.
  - intros r err -> H Hbody. cbn [bind try_except_RequestException].
    rewrite H. unfold response_json. now rewrite Hbody.
Qed.

(** C3 fails on the code: a 201 response is successful (2xx) and carries
    the generated text ["X"], yet the error string is returned; and a 200
    response whose payload is a JSON array makes the call raise. *)
Lemma generate_text_created :
  is_2xx (status_code created_response) = true
  /\ decoded_body created_response = Json (JObj [("response", JStr "X")])
  /\ generate_text client (always (Answer created_response)) "llama3" "hi" None half
     = Return (JStr ("Failed to generate text. Error: 201 - "
                     ++ text created_response))
  /\ generate_text client (always (Answer created_response)) "llama3" "hi" None half
     <> Return (JStr "X")
  /\ is_2xx (status_code array_response) = true
  /\ generate_text client (always (Answer array_response)) "llama3" "hi" None half
     = Raise (AttributeError "object has no attribute 'get'").
Proof. repeat split; try reflexivity. discriminate. Qed.

Lemma generate_text_witness :
  always (Answer server_error_response)
    {| req_method := POST; req_url := api_url client ++ "/generate";
       req_json := Some (generate_payload "llama3" "hi" None half) |}
  = Answer server_error_response
  /\ status_code server_error_response <> 200%Z
  /\ generate_text client (always (Answer server_error_response)) "llama3" "hi"
       None half
     = Return (JStr "Failed to generate text. Error: 500 - boom").
Proof.
  split; [reflexivity|]. split; [discriminate|].
  destruct (generate_text_spec client (always (Answer server_error_response))
              "llama3" "hi" None half) as (_ & Hstatus & _).
  apply (Hstatus server_error_response); [reflexivity | discriminate].
Defined.

Example generate_text_ok :
  generate_text client (always (Answer ok_response)) "llama3" "hi" (Some "s") half
  = Return (JStr "X")
  /\ generate_text client (always (TransportError "Connection refused")) "llama3"
       "hi" None half
     = Return (JStr "Failed to connect to Ollama API: Connection refused").
Proof. split; reflexivity. Qed.

(** C4, as the code has it.  [list_models] returns the empty list on a
    transport failure, on a status other than 200, on a 200 body that is
    not JSON, and on a 200 JSON object without a ["models"] member; on a
    200 JSON object whose ["models"] member is a list of objects that each
    have a ["name"] member, it returns those names in order. *)
Theorem list_models_spec (self : OllamaAPI) (net : network) :
  let rq := {| req_method := GET; req_url := api_url self ++ "/tags";
               req_json := None |} in
  (forall msg, net rq = TransportError msg -> list_models self net = Return [])
  /\ (forall r, net rq = Answer r -> status_code r <> 200%Z ->
        list_models self net = Return [])
  /\ (forall r err, net rq = Answer r -> status_code r = 200%Z ->
        decoded_body r = NotJson err -> list_models self net = Return [])
  /\ (forall r members, net rq = Answer r -> status_code r = 200%Z ->
        decoded_body r = Json (JObj members) ->
        dict_get members "models" = None -> list_models self net = Return [])
  /\ (forall r members items names, net rq = Answer r -> status_code r = 200%Z ->
        decoded_body r = Json (JObj members) ->
        dict_get members "models" = Some (JArr items) ->
        map named_entry items = map Some names ->
        list_models self net = Return names).
Proof.
  intros rq. unfold list_models, requests_get, send. fold rq.
  split; [|split; [|split; [|split]]].
  - now intros msg ->.
  - intros r -> H. apply Z.eqb_neq in H. cbn [bind try_except_RequestException].
    now rewrite H.
  - intros r err -> H Hbody. cbn [bind]. rewrite H.
    unfold response_json. now rewrite Hbody.
  - intros r members -> H Hbody Hm. cbn [bind]. rewrite H.
    unfold response_json. rewrite Hbody. cbn [bind py_get]. now rewrite Hm.
  - intros r members items names -> H Hbody Hm Hnames. cbn [bind]. rewrite H.
    unfold response_json. rewrite Hbody. cbn [bind py_get]. rewrite Hm.
    cbn [get_or py_iter bind]. now rewrite (mapM_named _ _ Hnames).
Qed.

(** C4 fails on the code: a 200 payload whose model entry lacks the
    ["name"] member makes [list_models] raise [KeyError]; and a 201
    response that lists a model yields the empty list. *)
Lemma list_models_nameless :
  list_models client (always (Answer nameless_models_response))
  = Raise (KeyError "name")
  /\ is_2xx (status_code created_models_response) = true
  /\ list_models client (always (Answer created_models_response)) = Return [].
Proof. repeat split; reflexivity. Qed.

Lemma list_models_witness :
  always (Answer two_models_response)
    {| req_method := GET; req_url := api_url client ++ "/tags"; req_json := None |}
  = Answer two_models_response
  /\ status_code two_models_response = 200%Z
  /\ list_models client (always (Answer two_models_response))
     = Return [JStr "llama3"; JStr "mistral"].
Proof.
  split; [reflexivity|]. split; [reflexivity|].
  destruct (list_models_spec client (always (Answer two_models_response)))
    as (_ & _ & _ & _ & Hnames).
  eapply (Hnames two_models_response); reflexivity.
Defined.

(** ** Search filter *)


Lemma filter_loop (p : string -> prompt_data -> bool)
    (prompts_data filtered : dict prompt_data) :
  NoDup (dict_keys prompts_data) ->
  (forall k, In k (dict_keys prompts_data) -> ~ In k (dict_keys filtered)) ->
  fold_left
    (fun filtered '(prompt_id, prompt_data) =>
       if p prompt_id prompt_data
       then dict_set filtered prompt_id prompt_data
       else filtered)
    prompts_data filtered
  = (filtered ++ filter (fun kv => p (fst kv) (snd kv)) prompts_data)%list.
Proof.
  revert filtered.
  induction prompts_data as [|[k v] rest IH]; intros filtered Hnd Hfresh; simpl.
  - now rewrite app_nil_r.
  - inversion Hnd as [|? ? Hk Hrest]; subst.
    destruct (p k v).
    + rewrite dict_set_fresh by (apply Hfresh; now left).
      rewrite IH; [now rewrite <- app_assoc | exact Hrest |].
      intros k' Hin. unfold dict_keys. rewrite map_app, in_app_iff. simpl.
      intros [H|[H|[]]].
      * apply (Hfresh k'); [now right | exact H].
      * subst k'. now apply Hk.
    + apply IH; [exact Hrest|]. intros k' Hin. apply Hfresh. now right.
Qed.

Lemma NoDup_keys_filter {V : Type} (p : string * V -> bool) (d : dict V) :
  wf_dict d -> wf_dict (filter p d).
Proof.
  unfold wf_dict, dict_keys. induction d as [|[k v] d IH]; simpl; [auto|].
  intros Hnd. inversion Hnd as [|? ? Hk Hrest]; subst.
  destruct (p (k, v)); simpl; [|auto].
  constructor; [|auto].
  intros Hin. apply Hk. apply in_map_iff in Hin as [kv [Hfst Hin]].
  apply filter_In in Hin as [Hin _]. rewrite <- Hfst. now apply in_map.
Qed.


Lemma sample_catalog_wf : wf_dict sample_catalog.
Proof.
  unfold wf_dict. simpl.
  repeat (constructor;
          [simpl; intros H; repeat (destruct H as [H|H]; [discriminate|]); elim H|]).
  constructor.
Qed.


Example filter_prompts_examples :
  filter_prompts sample_catalog "EMAIL" = [("formal_email", formal_email)]
  /\ filter_prompts sample_catalog "cleanup"
     = [("basic_cleanup", get_default_prompt)]
  /\ filter_prompts sample_catalog "" = sample_catalog
  /\ filter_prompts_obj [sample_catalog] 0 "" = Some ([sample_catalog], 0%nat)
  /\ filter_prompts_obj [sample_catalog] 0 "blank"
     = Some ([sample_catalog; [("blank", blank_entry)]], 1%nat).
Proof. repeat split; reflexivity. Qed.

(** ** Categorization *)

Lemma leb_iff (a b : string) :
  String.leb a b = true <-> a = b \/ String_as_OT.lt a b.
Proof.
  unfold String.leb.
  pose proof (String_as_OT.cmp_eq a b) as Heq.
  pose proof (String_as_OT.cmp_lt a b) as Hlt.
  unfold String_as_OT.cmp in Heq, Hlt.
  destruct (String.compare a b).
  - split; [intros _; left; now apply Heq | reflexivity].
  - split; [intros _; right; now apply Hlt | reflexivity].
  - split; [discriminate|].
    intros [H|H]; [apply Heq in H | apply Hlt in H]; discriminate.
Qed.

Lemma name_le_trans (x y z : entry) : name_le x y -> name_le y z -> name_le x z.
Proof.
  unfold name_le. rewrite !leb_iff.
  intros [H1|H1] [H2|H2].
  - left. congruence.
  - right. now rewrite H1.
  - right. now rewrite <- H2.
  - right. eapply String_as_OT.lt_trans; eauto.
Qed.

Lemma name_le_total (x y : entry) : name_le x y \/ name_le y x.
Proof. apply String.leb_total. Qed.

Lemma insert_by_name_perm (x : entry) (l : list entry) :
  Permutation (insert_by_name x l) (x :: l).
Proof.
  induction l as [|y l IH]; simpl; [reflexivity|].
  destruct (name_leb x y); [reflexivity|].
  rewrite IH. apply perm_swap.
Qed.

Lemma sort_by_name_perm (l : list entry) : Permutation (sort_by_name l) l.
Proof.
  induction l as [|x l IH]; simpl; [reflexivity|].
  rewrite insert_by_name_perm. now constructor.
Qed.

Lemma insert_by_name_sorted (x : entry) (l : list entry) :
  StronglySorted name_le l -> StronglySorted name_le (insert_by_name x l).
Proof.
  induction l as [|y l IH]; intros Hs; simpl.
  - constructor; constructor.
  - inversion Hs as [|? ? Hl Hy]; subst.
    destruct (name_leb x y) eqn:E.
    + constructor; [exact Hs|]. constructor; [exact E|].
      eapply Forall_impl; [|exact Hy]. intros z. now apply name_le_trans.
    + constructor; [now apply IH|].
      rewrite insert_by_name_perm. constructor; [|exact Hy].
      destruct (name_le_total x y) as [H|H]; [|exact H].
      unfold name_le in H. unfold name_leb in E. congruence.
Qed.

Lemma sort_by_name_sorted (l : list entry) : StronglySorted name_le (sort_by_name l).
Proof.
  induction l as [|x l IH]; simpl; [constructor|].
  now apply insert_by_name_sorted.
Qed.

Lemma sort_by_name_fixed (l : list entry) :
  StronglySorted name_le l -> sort_by_name l = l.
Proof.
  induction l as [|x l IH]; intros Hs; simpl; [reflexivity|].
  inversion Hs as [|? ? Hl Hx]; subst. rewrite (IH Hl).
  destruct l as [|y l]; [reflexivity|]. simpl.
  inversion Hx as [|? ? Hxy _]; subst. unfold name_le in Hxy.
  unfold name_leb. now rewrite Hxy.
Qed.

Lemma category_of_first_match (pd : prompt_data) : category_of pd = first_match pd.
Proof.
  unfold category_of, first_match, category_rules, rule_matches, any_word.
  cbn [find snd fst].
  repeat match goal with
         | |- context [if existsb ?f ?l then _ else _] =>
             destruct (existsb f l); [reflexivity|]
         end.
  reflexivity.
Qed.

Lemma category_of_named (pd : prompt_data) : In (category_of pd) category_names.
Proof.
  unfold category_of, category_names.
  repeat match goal with
         | |- context [if ?b then _ else _] => destruct b; [simpl; tauto|]
         end.
  simpl; tauto.
Qed.

Lemma bucket_append_get (categories : dict (list entry)) (category : string)
    (item : entry) (c : string) :
  dict_get (bucket_append categories category item) c
  = if String.eqb category c
    then option_map (fun items => (items ++ [item])%list) (dict_get categories c)
    else dict_get categories c.
Proof.
  induction categories as [|[k items] rest IH]; simpl.
  - now destruct (String.eqb category c).
  - destruct (String.eqb_spec k category) as [->|Hk]; simpl.
    + now destruct (String.eqb_spec category c).
    + rewrite IH. destruct (String.eqb_spec k c) as [->|Hc]; [|reflexivity].
      destruct (String.eqb_spec category c); [congruence | reflexivity].
Qed.

Lemma bucket_append_keys (categories : dict (list entry)) (category : string)
    (item : entry) :
  dict_keys (bucket_append categories category item) = dict_keys categories.
Proof.
  induction categories as [|[k items] rest IH]; simpl; [reflexivity|].
  destruct (String.eqb k category); simpl; [reflexivity | now rewrite IH].
Qed.

Lemma categorize_loop (prompts_data : dict prompt_data)
    (categories : dict (list entry)) :
  let result :=
    fold_left
      (fun categories '(prompt_id, prompt_data) =>
         bucket_append categories (category_of prompt_data)
           (prompt_id, display_name prompt_data))
      prompts_data categories in
  dict_keys result = dict_keys categories
  /\ forall c,
       dict_get result c
       = option_map (fun items => (items ++ bucket_members prompts_data c)%list)
           (dict_get categories c).
Proof.
  revert categories.
  induction prompts_data as [|[k pd] rest IH]; intros categories; simpl.
  - split; [reflexivity|]. intros c. destruct (dict_get categories c); simpl;
      [now rewrite app_nil_r | reflexivity].
  - destruct (IH (bucket_append categories (category_of pd) (k, display_name pd)))
      as [Hkeys Hget].
    split; [now rewrite Hkeys, bucket_append_keys|].
    intros c. rewrite Hget, bucket_append_get. unfold bucket_members. simpl.
    destruct (String.eqb (category_of pd) c); [|reflexivity].
    destruct (dict_get categories c); simpl; [|reflexivity].
    now rewrite <- app_assoc.
Qed.

Lemma sorted_buckets_get (categories : dict (list entry)) (c : string) :
  dict_get (map (fun '(category, items) => (category, sort_by_name items)) categories) c
  = option_map sort_by_name (dict_get categories c).
Proof.
  induction categories as [|[k items] rest IH]; simpl; [reflexivity|].
  now destruct (String.eqb k c).
Qed.

Lemma sorted_buckets_keys (categories : dict (list entry)) :
  dict_keys (map (fun '(category, items) => (category, sort_by_name items)) categories)
  = dict_keys categories.
Proof.
  induction categories as [|[k items] rest IH]; simpl; [reflexivity|].
  now rewrite IH.
Qed.

Lemma categorize_prompts_get (prompts_data : dict prompt_data) (c : string) :
  dict_get (categorize_prompts prompts_data) c
  = if in_dec string_dec c category_names
    then Some (sort_by_name (bucket_members prompts_data c))
    else None.
Proof.
  unfold categorize_prompts. rewrite sorted_buckets_get.
  destruct (categorize_loop prompts_data empty_categories) as [_ Hget].
  rewrite Hget.
  destruct (in_dec string_dec c category_names) as [Hin|Hout].
  - simpl in Hin.
    repeat (destruct Hin as [<-|Hin]; [reflexivity|]). elim Hin.
  - assert (H : dict_get empty_categories c = None).
    { apply dict_get_None. exact Hout. }
    now rewrite H.
Qed.

Lemma bucket_members_In (prompts_data : dict prompt_data) (c : string) (e : entry) :
  In e (bucket_members prompts_data c)
  <-> exists pd, In (fst e, pd) prompts_data /\ category_of pd = c
                 /\ snd e = display_name pd.
Proof.
  unfold bucket_members. rewrite in_map_iff. split.
  - intros [[k pd] [<- H]]. apply filter_In in H as [H1 H2]. simpl in *.
    exists pd. split; [exact H1|]. split; [now apply String.eqb_eq | reflexivity].
  - intros [pd (H1 & H2 & H3)]. exists (fst e, pd). simpl. split.
    + rewrite <- H3. now destruct e.
    + apply filter_In. split; [exact H1|]. simpl. now apply String.eqb_eq.
Qed.

(** C6. [categorize_prompts] is a function of the catalog alone.  Its
    result has the ten buckets in fixed key order; the bucket of an entry
    is the first rule, in priority order, one of whose keywords occurs in
    the lowercased name or description, and ["Other"] when no rule
    matches; every entry lies in that bucket and, identifiers being
    unique, in no other; each bucket holds exactly the entries classified
    to it, sorted by display name in character-code order, and sorting it
    again leaves it unchanged. *)
Theorem categorize_prompts_spec (prompts_data : dict prompt_data) :
  let categories := categorize_prompts prompts_data in
  dict_keys categories = category_names
  /\ (forall pd, category_of pd = first_match pd)
  /\ (forall c, In c category_names ->
        dict_get categories c = Some (sort_by_name (bucket_members prompts_data c)))
  /\ (forall c items, dict_get categories c = Some items ->
        StronglySorted name_le items
        /\ Permutation items (bucket_members prompts_data c)
        /\ sort_by_name items = items)
  /\ (forall prompt_id pd, In (prompt_id, pd) prompts_data ->
        exists items,
          dict_get categories (category_of pd) = Some items
          /\ In (prompt_id, display_name pd) items)
  /\ (wf_dict prompts_data ->
      forall prompt_id pd c items,
        In (prompt_id, pd) prompts_data ->
        dict_get categories c = Some items ->
        In (prompt_id, display_name pd) items ->
        c = category_of pd).
Proof.
  intros categories. subst categories.
  assert (Hget : forall c items,
             dict_get (categorize_prompts prompts_data) c = Some items ->
             items = sort_by_name (bucket_members prompts_data c)).
  { intros c items. rewrite categorize_prompts_get.
    destruct (in_dec string_dec c category_names); congruence. }
  split.
  { unfold categorize_prompts. rewrite sorted_buckets_keys.
    now destruct (categorize_loop prompts_data empty_categories) as [-> _]. }
  split; [apply category_of_first_match|].
  split.
  { intros c Hin. rewrite categorize_prompts_get.
    now destruct (in_dec string_dec c category_names). }
  split.
  { intros c items H. rewrite (Hget _ _ H).
    split; [apply sort_by_name_sorted|].
    split; [apply sort_by_name_perm|].
    apply sort_by_name_fixed, sort_by_name_sorted. }
  split.
  { intros prompt_id pd Hin.
    exists (sort_by_name (bucket_members prompts_data (category_of pd))). split.
    - rewrite categorize_prompts_get.
      destruct (in_dec string_dec (category_of pd) category_names) as [|Hout];
        [reflexivity|].
      elim Hout. apply category_of_named.
    - apply (Permutation_in _ (Permutation_sym (sort_by_name_perm _))).
      apply bucket_members_In. exists pd. simpl. auto. }
  intros Hwf prompt_id pd c items Hin H Hitem.
  rewrite (Hget _ _ H) in Hitem.
  apply (Permutation_in _ (sort_by_name_perm _)) in Hitem.
  apply bucket_members_In in Hitem as [pd' (H1 & H2 & _)]. simpl in H1.
  apply (In_dict_get _ _ _ Hwf) in H1, Hin.
  congruence.
Qed.

Lemma categorize_prompts_witness :
  wf_dict sample_catalog
  /\ In ("formal_email", formal_email) sample_catalog
  /\ dict_get (categorize_prompts sample_catalog) "Professional"
     = Some [("formal_email", "Formal Email")]
  /\ In ("formal_email", display_name formal_email) [("formal_email", "Formal Email")]
  /\ "Professional" = category_of formal_email.
Proof.
  assert (Hin : In ("formal_email", formal_email) sample_catalog).
  { right. now left. }
  assert (Hitem : In ("formal_email", display_name formal_email)
                     [("formal_email", "Formal Email")]).
  { now left. }
  split; [exact sample_catalog_wf|]. split; [exact Hin|].
  split; [reflexivity|]. split; [exact Hitem|].
  destruct (categorize_prompts_spec sample_catalog) as (_ & _ & _ & _ & _ & Hone).
  apply (Hone sample_catalog_wf "formal_email" formal_email "Professional"
           [("formal_email", "Formal Email")]);
    [exact Hin | reflexivity | exact Hitem].
Defined.

Example categorize_prompts_sample :
  categorize_prompts sample_catalog
  = [("General", [("basic_cleanup", "Basic Cleanup")]);
     ("Format Conversion", []); ("Style", []);
     ("Professional", [("formal_email", "Formal Email")]);
     ("Academic", []); ("Creative", [("untitled", "Unknown")]);
     ("Technical", []); ("Social Media", []); ("Prompting", []);
     ("Other", [("blank", "Blank")])].
Proof. reflexivity. Qed.

(** Upper case sorts before lower case, and equal names keep their
    catalog order. *)
Example sort_by_name_case_sensitive :
  sort_by_name [("a", "beta"); ("b", "Zeta"); ("c", "alpha"); ("d", "Zeta")]
  = [("b", "Zeta"); ("d", "Zeta"); ("c", "alpha"); ("a", "beta")].
Proof. reflexivity. Qed.

(* ================================================================== *)
(** * Part III: further properties of the code *)
(* ================================================================== *)

(** ** The flat list and the buckets *)

Lemma dict_values_by_key {V : Type} (d : dict V) (f : string -> V) :
  wf_dict d ->
  (forall k, In k (dict_keys d) -> dict_get d k = Some (f k)) ->
  map snd d = map f (dict_keys d).
Proof.
  unfold wf_dict. induction d as [|[k v] d IH]; intros Hnd H; [reflexivity|].
  simpl in *. inversion Hnd as [|? ? Hk Hrest]; subst.
  pose proof (H k (or_introl eq_refl)) as Hhead.
  rewrite String.eqb_refl in Hhead. injection Hhead as ->.
  f_equal. apply IH; [exact Hrest|].
  intros k' Hin. specialize (H k' (or_intror Hin)).
  destruct (String.eqb_spec k k') as [->|_]; [contradiction | exact H].
Qed.

Lemma category_names_NoDup : NoDup category_names.
Proof.
  unfold category_names.
  repeat (constructor;
          [simpl; intros H; repeat (destruct H as [H|H]; [discriminate|]); elim H|]).
  constructor.
Qed.

Lemma buckets_in_key_order (prompts_data : dict prompt_data) :
  map snd (categorize_prompts prompts_data)
  = map (fun c => sort_by_name (bucket_members prompts_data c)) category_names.
Proof.
  assert (Hkeys : dict_keys (categorize_prompts prompts_data) = category_names).
  { unfold categorize_prompts. rewrite sorted_buckets_keys.
    now destruct (categorize_loop prompts_data empty_categories) as [-> _]. }
  rewrite <- Hkeys. apply dict_values_by_key.
  - unfold wf_dict. rewrite Hkeys. apply category_names_NoDup.
  - intros k Hin. rewrite Hkeys in Hin. rewrite categorize_prompts_get.
    now destruct (in_dec string_dec k category_names).
Qed.

Lemma concat_one_bucket (names : list string) (c0 : string) (e : entry)
    (f : string -> list entry) :
  NoDup names -> In c0 names ->
  Permutation
    (concat (map (fun c => if String.eqb c0 c then e :: f c else f c) names))
    (e :: concat (map f names)).
Proof.
  induction names as [|c names IH]; intros Hnd Hin; [elim Hin|].
  inversion Hnd as [|? ? Hc Hrest]; subst. simpl.
  destruct (String.eqb_spec c0 c) as [->|Hne].
  - simpl. constructor. apply Permutation_app_head.
    assert (E : map (fun c' => if String.eqb c c' then e :: f c' else f c') names
                = map f names).
    { apply map_ext_in. intros c' Hc'.
      destruct (String.eqb_spec c c') as [->|_]; [contradiction | reflexivity]. }
    now rewrite E.
  - destruct Hin as [->|Hin]; [congruence|].
    rewrite (IH Hrest Hin). apply Permutation_sym, Permutation_middle.
Qed.

Lemma bucket_members_cons (k : string) (pd : prompt_data)
    (prompts_data : dict prompt_data) (c : string) :
  bucket_members ((k, pd) :: prompts_data) c
  = if String.eqb (category_of pd) c
    then (k, display_name pd) :: bucket_members prompts_data c
    else bucket_members prompts_data c.
Proof.
  unfold bucket_members. simpl. now destruct (String.eqb (category_of pd) c).
Qed.

Lemma buckets_partition (prompts_data : dict prompt_data) :
  Permutation
    (concat (map (bucket_members prompts_data) category_names))
    (get_prompt_names_and_ids prompts_data).
Proof.
  induction prompts_data as [|[k pd] rest IH]; [reflexivity|].
  cbn [get_prompt_names_and_ids map]. fold (get_prompt_names_and_ids rest).
  rewrite <- IH.
  rewrite (map_ext _ _ (bucket_members_cons k pd rest)).
  apply (concat_one_bucket category_names (category_of pd) (k, display_name pd)).
  - apply category_names_NoDup.
  - apply category_of_named.
Qed.

(** The category tabs show what the flat list shows: the ten buckets of
    [categorize_prompts], taken together, hold exactly the pairs of
    [get_prompt_names_and_ids], each as often as the flat list has it;
    no entry is lost or duplicated by categorization. *)
Theorem buckets_cover_flat_list (prompts_data : dict prompt_data) :
  Permutation
    (concat (map snd (categorize_prompts prompts_data)))
    (get_prompt_names_and_ids prompts_data)
  /\ length (concat (map snd (categorize_prompts prompts_data)))
     = length prompts_data.
Proof.
  assert (H : Permutation
                (concat (map snd (categorize_prompts prompts_data)))
                (get_prompt_names_and_ids prompts_data)).
  { rewrite buckets_in_key_order, <- buckets_partition.
    induction category_names as [|c names IH]; simpl; [reflexivity|].
    apply Permutation_app; [apply sort_by_name_perm | exact IH]. }
  split; [exact H|].
  rewrite (Permutation_length H). unfold get_prompt_names_and_ids.
  apply length_map.
Qed.

(** ** Narrowing a search *)

(** The test [filter_prompts] applies for a term, empty or not. *)
Lemma filter_prompts_filter (prompts_data : dict prompt_data) (search_term : string) :
  wf_dict prompts_data ->
  filter_prompts prompts_data search_term
  = filter (fun kv => negb (truthy search_term)
                      || filter_match (lower search_term) (fst kv) (snd kv))
      prompts_data.
Proof.
  intros Hwf. unfold filter_prompts. destruct search_term as [|c s]; cbn [truthy negb].
  - simpl. induction prompts_data as [|kv d IH]; [reflexivity|].
    simpl. f_equal. apply IH. unfold wf_dict in *. simpl in Hwf.
    now inversion Hwf.
  - now rewrite (filter_loop (filter_match (lower (String c s)))).
Qed.

Lemma filter_swap {A : Type} (p q : A -> bool) (l : list A) :
  filter p (filter q l) = filter q (filter p l).
Proof.
  induction l as [|x l IH]; [reflexivity|]. simpl.
  destruct (q x) eqn:Hq, (p x) eqn:Hp; simpl; rewrite ?Hq, ?Hp, IH; reflexivity.
Qed.

Lemma filter_twice {A : Type} (p : A -> bool) (l : list A) :
  filter p (filter p l) = filter p l.
Proof.
  induction l as [|x l IH]; [reflexivity|]. simpl.
  destruct (p x) eqn:Hp; simpl; rewrite ?Hp, IH; reflexivity.
Qed.

(** Searching never invents or reorders entries, and searches compose:
    on a catalog without duplicate identifiers, the result of
    [filter_prompts] is again such a catalog and a part of the input;
    filtering a second time by the same term changes nothing; and
    narrowing by two terms gives the same result in either order. *)
Theorem filter_prompts_narrowing (prompts_data : dict prompt_data) (t1 t2 : string) :
  wf_dict prompts_data ->
  wf_dict (filter_prompts prompts_data t1)
  /\ incl (filter_prompts prompts_data t1) prompts_data
  /\ (length (filter_prompts prompts_data t1) <= length prompts_data)%nat
  /\ filter_prompts (filter_prompts prompts_data t1) t1 = filter_prompts prompts_data t1
  /\ filter_prompts (filter_prompts prompts_data t1) t2
     = filter_prompts (filter_prompts prompts_data t2) t1.
Proof.
  intros Hwf.
  assert (Hwf1 : wf_dict (filter_prompts prompts_data t1)).
  { rewrite filter_prompts_filter by exact Hwf. now apply NoDup_keys_filter. }
  assert (Hwf2 : wf_dict (filter_prompts prompts_data t2)).
  { rewrite filter_prompts_filter by exact Hwf. now apply NoDup_keys_filter. }
  split; [exact Hwf1|].
  split; [rewrite filter_prompts_filter by exact Hwf; apply incl_filter|].
  split; [rewrite filter_prompts_filter by exact Hwf; apply filter_length_le|].
  split.
  - rewrite (filter_prompts_filter _ t1 Hwf1), (filter_prompts_filter _ t1 Hwf).
    apply filter_twice.
  - rewrite (filter_prompts_filter _ t2 Hwf1), (filter_prompts_filter _ t1 Hwf2).
    rewrite (filter_prompts_filter _ t1 Hwf), (filter_prompts_filter _ t2 Hwf).
    apply filter_swap.
Qed.

Lemma filter_prompts_narrowing_witness :
  wf_dict sample_catalog
  /\ filter_prompts (filter_prompts sample_catalog "text") "EMAIL"
     = filter_prompts (filter_prompts sample_catalog "EMAIL") "text".
Proof.
  split; [exact sample_catalog_wf|].
  apply (filter_prompts_narrowing sample_catalog "text" "EMAIL" sample_catalog_wf).
Defined.

(** ** From the selection to the composer *)

Lemma resolved_texts_length (prompts_data : dict prompt_data) (selection : list string) :
  (length (resolved_texts prompts_data selection) <= length selection)%nat.
Proof.
  induction selection as [|prompt_id rest IH]; simpl; [lia|].
  destruct (instruction_of prompts_data prompt_id); simpl; lia.
Qed.

Lemma resolved_texts_truthy (prompts_data : dict prompt_data) (selection : list string) :
  Forall (fun t => t <> "") (resolved_texts prompts_data selection).
Proof.
  induction selection as [|prompt_id rest IH]; simpl; [constructor|].
  pose proof (get_prompt_text_instruction prompts_data prompt_id) as H.
  destruct (instruction_of prompts_data prompt_id) as [t|]; [|exact IH].
  constructor; [|exact IH]. destruct H as [_ H]. now destruct t.
Qed.

(** Whatever is ticked, the composer gets between one and ten
    instructions, none of them empty: the selection stored by the cap of
    [main] has at most ten identifiers, capping it again changes nothing
    and warns no more, and [transform_text] resolves it to at least one
    and at most ten non-empty texts. *)
Theorem capped_selection_resolves (selected : list string)
    (prompts_data : dict prompt_data) :
  let applied := snd (limit_selection selected) in
  (length applied <= 10)%nat
  /\ limit_selection applied = ([], applied)
  /\ (1 <= length (selected_prompts applied prompts_data) <= 10)%nat
  /\ Forall (fun t => t <> "") (selected_prompts applied prompts_data).
Proof.
  intros applied.
  assert (Hlen : (length applied <= 10)%nat).
  { subst applied. unfold limit_selection.
    destruct (Nat.ltb_spec 10 (length selected)); cbn [snd];
      [rewrite length_firstn; lia | lia]. }
  split; [exact Hlen|]. split.
  { unfold limit_selection.
    destruct (Nat.ltb_spec 10 (length applied)); [lia | reflexivity]. }
  rewrite selected_prompts_cases.
  pose proof (resolved_texts_length prompts_data applied) as Hr.
  pose proof (resolved_texts_truthy prompts_data applied) as Ht.
  destruct (resolved_texts prompts_data applied) as [|t ts].
  - split; [simpl; lia|]. constructor; [discriminate | constructor].
  - split; [simpl in *; lia | exact Ht].
Qed.

(** ** What escapes the client *)

Lemma try_except_raises {A : Type} (body : result A) (a : string -> A) (e : exn) :
  try_except_RequestException body (fun msg => Return (a msg)) = Raise e ->
  body = Raise e /\ forall msg, e <> RequestException msg.
Proof.
  destruct body as [x|[msg|k|m|m]]; simpl; try discriminate;
    intros [= <-]; split; try reflexivity; discriminate.
Qed.

(** [generate_text] raises in exactly one situation: the server answered
    200 with a body that is JSON but not an object; the error is then the
    [AttributeError] of the missing [get].  In particular no
    [requests.RequestException] ever reaches the caller. *)
Theorem generate_text_raises (self : OllamaAPI) (net : network) (model prompt : string)
    (system_prompt : option string) (temperature : float) (e : exn) :
  let rq := {| req_method := POST; req_url := api_url self ++ "/generate";
               req_json := Some (generate_payload model prompt system_prompt
                                   temperature) |} in
  generate_text self net model prompt system_prompt temperature = Raise e
  <-> exists r v,
        net rq = Answer r /\ status_code r = 200%Z /\ decoded_body r = Json v
        /\ (forall members, v <> JObj members)
        /\ e = AttributeError "object has no attribute 'get'".
Proof.
  intros rq. unfold generate_text, requests_post, send. fold rq. split.
  - destruct (net rq) as [msg|r]; [discriminate|].
    cbn [bind]. destruct (Z.eqb_spec (status_code r) 200) as [Hs|Hs];
      [|discriminate].
    unfold response_json. destruct (decoded_body r) as [err|v] eqn:Hb;
      [discriminate|].
    cbn [bind]. intros H. exists r, v.
    destruct v; simpl in H; try discriminate; injection H as <-;
      repeat split; auto; discriminate.
  - intros (r & v & -> & Hs & Hb & Hv & ->). cbn [bind]. rewrite Hs. simpl.
    unfold response_json. rewrite Hb. cbn [bind].
    destruct v; try reflexivity. now elim (Hv members).
Qed.

Lemma generate_text_raises_witness :
  (exists r v,
     always (Answer array_response)
       {| req_method := POST; req_url := api_url client ++ "/generate";
          req_json := Some (generate_payload "llama3" "hi" None half) |}
     = Answer r /\ status_code r = 200%Z /\ decoded_body r = Json v
     /\ (forall members, v <> JObj members)
     /\ AttributeError "object has no attribute 'get'"
        = AttributeError "object has no attribute 'get'")
  /\ generate_text client (always (Answer array_response)) "llama3" "hi" None half
     = Raise (AttributeError "object has no attribute 'get'").
Proof.
  assert (H : exists r v,
     always (Answer array_response)
       {| req_method := POST; req_url := api_url client ++ "/generate";
          req_json := Some (generate_payload "llama3" "hi" None half) |}
     = Answer r /\ status_code r = 200%Z /\ decoded_body r = Json v
     /\ (forall members, v <> JObj members)
     /\ AttributeError "object has no attribute 'get'"
        = AttributeError "object has no attribute 'get'").
  { exists array_response, (JArr []). repeat split. discriminate. }
  split; [exact H|].
  apply (generate_text_raises client (always (Answer array_response)) "llama3" "hi"
           None half). exact H.
Defined.

(** When [list_models] raises, the server did answer 200 with a JSON
    body: only an unexpected payload shape can make it fail, and what
    escapes is never a [requests.RequestException]. *)
Theorem list_models_raises (self : OllamaAPI) (net : network) (e : exn) :
  list_models self net = Raise e ->
  (exists r v,
     net {| req_method := GET; req_url := api_url self ++ "/tags";
            req_json := None |} = Answer r
     /\ status_code r = 200%Z /\ decoded_body r = Json v)
  /\ forall msg, e <> RequestException msg.
Proof.
  unfold list_models. intros H. apply try_except_raises in H as [H Hne].
  split; [|exact Hne].
  unfold requests_get, send in H.
  destruct (net _) as [msg|r]; [injection H as <-; now elim (Hne msg)|].
  cbn [bind] in H.
  destruct (Z.eqb_spec (status_code r) 200) as [Hs|Hs]; [|discriminate].
  unfold response_json in H. destruct (decoded_body r) as [err|v] eqn:Hb.
  - injection H as <-. now elim (Hne err).
  - now exists r, v.
Qed.

Lemma list_models_raises_witness :
  list_models client (always (Answer nameless_models_response))
  = Raise (KeyError "name")
  /\ forall msg, KeyError "name" <> RequestException msg.
Proof.
  assert (H : list_models client (always (Answer nameless_models_response))
              = Raise (KeyError "name")) by reflexivity.
  split; [exact H|].
  apply (list_models_raises client (always (Answer nameless_models_response))
           (KeyError "name") H).
Defined.

(** ** Suggested file names *)

Lemma length_append (a b : string) :
  String.length (a ++ b) = (String.length a + String.length b)%nat.
Proof. induction a as [|c a IH]; simpl; [reflexivity | now rewrite IH]. Qed.

Lemma length_take (n : nat) (s : string) : (String.length (take n s) <= n)%nat.
Proof.
  revert s. induction n as [|n IH]; intros [|c s]; simpl; try lia.
  specialize (IH s). lia.
Qed.





(** With the fifteen-character timestamp and an extension of up to 188
    characters (in general, whenever the two together have at most 203),
    the suggested name never exceeds the 255 characters a file name may
    have, however long the text is. *)
Theorem generate_suggested_filename_length (text extension timestamp : string) :
  (String.length timestamp + String.length extension <= 203)%nat ->
  (String.length (generate_suggested_filename text extension timestamp) <= 255)%nat.
Proof.
  intros H. unfold generate_suggested_filename.
  set (base := replace_special _).
  destruct (Nat.ltb_spec 255
              (String.length (base ++ "_" ++ timestamp ++ "." ++ extension)))
    as [Hlong|Hshort]; [|exact Hshort].
  rewrite !length_append. pose proof (length_take 50 base) as Ht.
  change (String.length "_") with 1%nat. change (String.length ".") with 1%nat.
  lia.
Qed.

Lemma generate_suggested_filename_length_witness :
  (String.length "20250101_120000" + String.length "txt" <= 203)%nat
  /\ (String.length
        (generate_suggested_filename "Dear Sir, hello" "txt" "20250101_120000")
      <= 255)%nat.
Proof.
  split; [simpl; lia|].
  apply (generate_suggested_filename_length "Dear Sir, hello" "txt" "20250101_120000").
  simpl; lia.
Defined.

Example generate_suggested_filename_examples :
  generate_suggested_filename ("  Hello, world! this is  a test" ++ nl ++ "more")
    "txt" "20250101_120000"
  = "Hello__world__this_is_a_20250101_120000.txt"
  /\ generate_suggested_filename "" "txt" "20250101_120000"
     = "_20250101_120000.txt".
Proof. split; reflexivity. Qed.






Example generate_filename_example :
  generate_filename ("Hello, World! this" ++ nl ++ "is a test of it") "txt"
    "20250101_120000"
  = "hello_world_this_is_a_20250101_120000.txt".
Proof. reflexivity. Qed.

(** ** Preference store *)

Lemma dict_get_set_eq {V : Type} (d : dict V) (k : string) (v : V) :
  dict_get (dict_set d k v) k = Some v.
Proof.
  induction d as [|[k' v'] d IH]; simpl.
  - now rewrite String.eqb_refl.
  - destruct (String.eqb k' k) eqn:E; simpl; now rewrite E.
Qed.





Example update_preference_on_array :
  update_preference "model" (JStr "mistral") array_config
  = (Raise (TypeError "list indices must be integers or slices, not str"),
     array_config).
Proof. reflexivity. Qed.

(** The defaults are not constant.  When the file is missing or
    unreadable, [update_preference] assigns into the module-level
    [DEFAULT_CONFIG] itself; from then on a store that has lost its file
    is repaired with the updated value, not with the shipped default.
    When the file is valid the defaults stay as they are. *)
Theorem update_preference_changes_defaults (key : string) (value default : json)
    (c : config_state) :
  let c' := snd (update_preference key value c) in
  ((config_file c = Absent \/ config_file c = Corrupt) ->
   DEFAULT_CONFIG c' = dict_set (DEFAULT_CONFIG c) key value
   /\ forall later,
        DEFAULT_CONFIG later = DEFAULT_CONFIG c' ->
        config_file later = Absent \/ config_file later = Corrupt ->
        fst (get_preference key default later) = Return value)
  /\ (forall v, config_file c = Stored v -> DEFAULT_CONFIG c' = DEFAULT_CONFIG c).
Proof.
  intros c'. subst c'. split.
  - intros Hfile.
    assert (E : DEFAULT_CONFIG (snd (update_preference key value c))
                = dict_set (DEFAULT_CONFIG c) key value).
    { unfold update_preference, load_preferences, save_preferences,
        ensure_config_dir.
      destruct c as [d [|] file]; simpl in Hfile;
        destruct Hfile as [-> | ->]; reflexivity. }
    split; [exact E|].
    intros later Hd Hl. rewrite E in Hd.
    unfold get_preference, load_preferences, save_preferences, ensure_config_dir.
    destruct later as [d' [|] file']; simpl in Hd, Hl; subst d';
      destruct Hl as [-> | ->]; cbn -[dict_get dict_set];
      now rewrite dict_get_set_eq.
  - intros v Hfile.
    unfold update_preference, load_preferences, save_preferences, ensure_config_dir.
    destruct c as [d [|] file]; simpl in Hfile; subst file;
      destruct v; reflexivity.
Qed.

Lemma update_preference_changes_defaults_witness :
  (config_file fresh_config = Absent \/ config_file fresh_config = Corrupt)
  /\ DEFAULT_CONFIG (snd (update_preference "model" (JStr "mistral") fresh_config))
     = [("model", JStr "mistral"); ("download_path", JStr "/home/user/Desktop");
        ("last_used_transformations", JArr [JStr "basic_cleanup"])].
Proof.
  split; [now left|].
  destruct (update_preference_changes_defaults "model" (JStr "mistral") JNull
              fresh_config) as [H _].
  destruct H as [E _]; [now left|].
  rewrite E. reflexivity.
Defined.

(** ** Handlers *)

Lemma transform_text_steps (net : network) (timestamp : string) (w : world) :
  input_text (session w) <> "" ->
  transform_text net timestamp w
  = match generate_text (OllamaAPI_init default_base_url) net
            (ollama_model (session w)) (input_text (session w))
            (Some (system_prompt_of (selected_transformations (session w))
                     (prompts_data (session w))))
            default_temperature with
    | Raise e => (Return tt, after_exception e w)
    | Return transformed_text =>
        let w1 := with_session (set_output_text transformed_text) w in
        match suggested_filename_of transformed_text timestamp with
        | Raise e => (Return tt, after_exception e w1)
        | Return filename =>
            let w2 := with_session (set_suggested_filename filename) w1 in
            match update_preference "last_used_transformations"
                    (JArr (map JStr (selected_transformations (session w))))
                    (config w) with
            | (Raise e, c) => (Return tt, after_exception e (with_config_state c w2))
            | (Return _, c) =>
                (Return tt,
                 with_session (set_transformation_success true)
                   (with_session (set_ollama_error None)
                      (with_config_state c w2)))
            end
        end
    end.
Proof.
  intros Hin. unfold transform_text, and_then at 1, get_session.
  destruct (input_text (session w)) as [|ch rest] eqn:Ein; [congruence|].
  cbn [truthy negb]. unfold try_except_Exception, and_then, lift.
  destruct (generate_text _ _ _ _ _ _) as [v|e]; [|reflexivity].
  cbn. destruct (suggested_filename_of v timestamp) as [f|e]; [|reflexivity].
  cbn. unfold with_config. cbn.
  destruct (update_preference _ _ (config w)) as [[u|e] c]; reflexivity.
Qed.


Lemma generate_text_failure_text (self : OllamaAPI) (net : network)
    (model prompt : string) (system_prompt : option string) (temperature : float) :
  (exists msg,
     net {| req_method := POST; req_url := api_url self ++ "/generate";
            req_json := Some (generate_payload model prompt system_prompt
                                temperature) |} = TransportError msg)
  \/ (exists r,
        net {| req_method := POST; req_url := api_url self ++ "/generate";
               req_json := Some (generate_payload model prompt system_prompt
                                   temperature) |} = Answer r
        /\ status_code r <> 200%Z) ->
  exists s,
    generate_text self net model prompt system_prompt temperature = Return (JStr s)
    /\ prefix "Failed to " s = true.
Proof.
  unfold generate_text, requests_post, send.
  intros [[msg ->]|[r [-> Hs]]]; cbn [bind try_except_RequestException].
  - eexists. split; reflexivity.
  - apply Z.eqb_neq in Hs. rewrite Hs. eexists. split; reflexivity.
Qed.



Lemma update_last_used (value : json) (c : config_state) :
  usable_file (config_file c) ->
  exists c',
    update_preference "last_used_transformations" value c = (Return tt, c')
    /\ fst (get_preference "last_used_transformations" JNull c') = Return value.
Proof.
  intros Hfile.
  exists (snd (update_preference "last_used_transformations" value c)).
  unfold update_preference, get_preference, load_preferences, save_preferences,
    ensure_config_dir.
  destruct c as [d dir file]. simpl in Hfile.
  destruct file as [| |[]]; try (now elim Hfile);
    destruct dir; cbn -[dict_get dict_set];
    rewrite ?dict_get_set_eq; split; reflexivity.
Qed.

Lemma transform_text_completed (net : network) (timestamp text : string) (w : world) :
  input_text (session w) <> "" ->
  generate_text (OllamaAPI_init default_base_url) net
    (ollama_model (session w)) (input_text (session w))
    (Some (system_prompt_of (selected_transformations (session w))
             (prompts_data (session w))))
    default_temperature = Return (JStr text) ->
  usable_file (config_file (config w)) ->
  exists c,
    fst (get_preference "last_used_transformations" JNull c)
    = Return (JArr (map JStr (selected_transformations (session w))))
    /\ transform_text net timestamp w
       = (Return tt,
          with_session (set_transformation_success true)
            (with_session (set_ollama_error None)
               (with_config_state c
                  (with_session
                     (set_suggested_filename
                        (generate_suggested_filename text "txt" timestamp))
                     (with_session (set_output_text (JStr text)) w))))).
Proof.
  intros Hin Hgen Hfile.
  rewrite (transform_text_steps net timestamp w Hin), Hgen.
  cbn [suggested_filename_of]. cbn zeta.
  destruct (update_last_used
              (JArr (map JStr (selected_transformations (session w))))
              (config w) Hfile) as (c & -> & Hget).
  now exists c.
Qed.

(** A completed transformation.  When the input is non-empty, the client
    returns a string and the preference file is usable, the string
    becomes the output text, the file name suggestion is derived from it,
    the error is cleared, the success flag is set, nothing is shown, and
    the selection is persisted as the last used one. *)
Theorem transform_text_success (net : network) (timestamp text : string) (w : world) :
  input_text (session w) <> "" ->
  generate_text (OllamaAPI_init default_base_url) net
    (ollama_model (session w)) (input_text (session w))
    (Some (system_prompt_of (selected_transformations (session w))
             (prompts_data (session w))))
    default_temperature = Return (JStr text) ->
  usable_file (config_file (config w)) ->
  let w' := snd (transform_text net timestamp w) in
  output_text (session w') = JStr text
  /\ suggested_filename (session w')
     = generate_suggested_filename text "txt" timestamp
  /\ ollama_error (session w') = None
  /\ transformation_success (session w') = true
  /\ shown w' = shown w
  /\ fst (get_preference "last_used_transformations" JNull (config w'))
     = Return (JArr (map JStr (selected_transformations (session w)))).
Proof.
  intros Hin Hgen Hfile w'. subst w'.
  destruct (transform_text_completed net timestamp text w Hin Hgen Hfile)
    as (c & Hget & ->).
  repeat split; try reflexivity. exact Hget.
Qed.

Lemma transform_text_success_witness :
  input_text (session sample_world) <> ""
  /\ usable_file (config_file (config sample_world))
  /\ output_text
       (session (snd (transform_text (always (Answer ok_response))
                        "20250101_120000" sample_world)))
     = JStr "X".
Proof.
  split; [discriminate|]. split; [exact I|].
  apply (transform_text_success (always (Answer ok_response)) "20250101_120000" "X"
           sample_world); [discriminate | reflexivity | exact I].
Defined.

(** Failures of the exchange come back as content.  When the server is
    unreachable or answers with a status other than 200, and the
    preference file is usable, [transform_text] stores the failure
    message as the output text, sets the success flag, clears the error
    and shows no error message. *)
Theorem transform_text_failure_as_content (net : network) (timestamp : string)
    (w : world) :
  input_text (session w) <> "" ->
  usable_file (config_file (config w)) ->
  (exists msg, net (transform_request w) = TransportError msg)
  \/ (exists r, net (transform_request w) = Answer r /\ status_code r <> 200%Z) ->
  let w' := snd (transform_text net timestamp w) in
  (exists s, output_text (session w') = JStr s /\ prefix "Failed to " s = true)
  /\ transformation_success (session w') = true
  /\ ollama_error (session w') = None
  /\ shown w' = shown w.
Proof.
  intros Hin Hfile Hnet w'.
  destruct (generate_text_failure_text (OllamaAPI_init default_base_url) net
              (ollama_model (session w)) (input_text (session w))
              (Some (system_prompt_of (selected_transformations (session w))
                       (prompts_data (session w))))
              default_temperature Hnet) as (s & Hgen & Hs).
  subst w'.
  destruct (transform_text_completed net timestamp s w Hin Hgen Hfile)
    as (c & _ & ->).
  split; [now exists s|]. repeat split; reflexivity.
Qed.

Lemma transform_text_failure_as_content_witness :
  input_text (session sample_world) <> ""
  /\ usable_file (config_file (config sample_world))
  /\ transformation_success
       (session (snd (transform_text (always (Answer server_error_response))
                        "20250101_120000" sample_world))) = true
  /\ output_text
       (session (snd (transform_text (always (Answer server_error_response))
                        "20250101_120000" sample_world)))
     = JStr "Failed to generate text. Error: 500 - boom".
Proof.
  split; [discriminate|]. split; [exact I|].
  destruct (transform_text_failure_as_content
              (always (Answer server_error_response)) "20250101_120000"
              sample_world) as (_ & Hok & _).
  - discriminate.
  - exact I.
  - right. exists server_error_response. split; [reflexivity | discriminate].
  - split; [exact Hok | reflexivity].
Defined.

(** What an exception leaves behind.  If the client call raises, the
    output text, the file name suggestion and the preference store stay
    as they were.  If the client returns a value that is not a string,
    that value has already replaced the output text when the file name
    cannot be derived.  In both cases the success flag is cleared, the
    error text is recorded and exactly one error message is shown. *)
Theorem transform_text_on_exception (net : network) (timestamp : string) (w : world) :
  input_text (session w) <> "" ->
  let out :=
    generate_text (OllamaAPI_init default_base_url) net
      (ollama_model (session w)) (input_text (session w))
      (Some (system_prompt_of (selected_transformations (session w))
               (prompts_data (session w))))
      default_temperature in
  let w' := snd (transform_text net timestamp w) in
  (forall e, out = Raise e ->
     output_text (session w') = output_text (session w)
     /\ suggested_filename (session w') = suggested_filename (session w)
     /\ config w' = config w
     /\ transformation_success (session w') = false
     /\ ollama_error (session w') = Some (str_of_exn e)
     /\ shown w'
        = (shown w ++ [Error ("Error transforming text: " ++ str_of_exn e)])%list)
  /\ (forall v, out = Return v -> (forall s, v <> JStr s) ->
        output_text (session w') = v
        /\ suggested_filename (session w') = suggested_filename (session w)
        /\ config w' = config w
        /\ transformation_success (session w') = false
        /\ (exists msg, ollama_error (session w') = Some msg
                        /\ shown w'
                           = (shown w
                              ++ [Error ("Error transforming text: " ++ msg)])%list)).
Proof.
  intros Hin out w'. subst out w'.
  rewrite (transform_text_steps net timestamp w Hin). split.
  - intros e ->. repeat split; reflexivity.
  - intros v -> Hv. cbn zeta.
    destruct v; try (now elim (Hv s)); cbn [suggested_filename_of];
      (repeat split; try reflexivity); eexists; split; reflexivity.
Qed.

Lemma transform_text_on_exception_witness :
  input_text (session sample_world) <> ""
  /\ generate_text (OllamaAPI_init default_base_url)
       (always (Answer array_response))
       (ollama_model (session sample_world)) (input_text (session sample_world))
       (Some (system_prompt_of (selected_transformations (session sample_world))
                (prompts_data (session sample_world))))
       default_temperature
     = Raise (AttributeError "object has no attribute 'get'")
  /\ transformation_success
       (session (snd (transform_text (always (Answer array_response))
                        "20250101_120000" sample_world))) = false.
Proof.
  split; [discriminate|]. split; [reflexivity|].
  destruct (transform_text_on_exception (always (Answer array_response))
              "20250101_120000" sample_world) as [H _]; [discriminate|].
  destruct (H (AttributeError "object has no attribute 'get'") eq_refl)
    as (_ & _ & _ & Hok & _).
  exact Hok.
Defined.



(** The outcome of [check_ollama_connection].  It returns true only when
    the probe succeeded and the model list could be read; the list it
    then stores is never empty (["llama3"] stands in for an empty one)
    and the error is cleared.  It returns false exactly when the probe
    failed; the model list is then untouched and the error text is set.
    If reading the model list raises, the exception reaches the caller
    and the world is unchanged.  Nothing is ever shown and the preference
    store is never touched. *)
Theorem check_ollama_connection_outcome (net : network) (w : world) :
  let client := OllamaAPI_init default_base_url in
  match check_ollama_connection net w with
  | (Return true, w') =>
      check_connection client net = Return true
      /\ (exists models, list_models client net = Return models
                         /\ available_models (session w')
                            = match models with
                              | [] => [JStr "llama3"]
                              | _ => models
                              end)
      /\ available_models (session w') <> []
      /\ ollama_error (session w') = None
      /\ shown w' = shown w /\ config w' = config w
  | (Return false, w') =>
      check_connection client net = Return false
      /\ available_models (session w') = available_models (session w)
      /\ ollama_error (session w')
         = Some "Cannot connect to Ollama API. Please ensure Ollama is installed and running."
      /\ shown w' = shown w /\ config w' = config w
  | (Raise e, w') =>
      check_connection client net = Return true
      /\ list_models client net = Raise e
      /\ w' = w
  end.
Proof.
  intros client. unfold check_ollama_connection, and_then, lift. fold client.
  destruct (check_connection client net) as [[|]|e] eqn:Hc.
  - destruct (list_models client net) as [models|e] eqn:Hl.
    + cbn. split; [reflexivity|]. split; [now exists models|].
      split; [destruct models; discriminate|]. repeat split; reflexivity.
    + destruct w. repeat split; reflexivity.
  - cbn. repeat split; reflexivity.
  - exfalso. unfold check_connection, requests_get, send in Hc.
    destruct (net _); discriminate.
Qed.

Example check_ollama_connection_examples :
  available_models
    (session (snd (check_ollama_connection (always (Answer two_models_response))
                     sample_world)))
  = [JStr "llama3"; JStr "mistral"]
  /\ check_ollama_connection (always (Answer nameless_models_response)) sample_world
     = (Raise (KeyError "name"), sample_world)
  /\ fst (check_ollama_connection (always (TransportError "refused")) sample_world)
     = Return false.
Proof. repeat split; reflexivity. Qed.
